(** * HWTempMonitor: the sampling-and-alerting tick of cpu_temp_monitor.py

    A shallow embedding of [HardwareTemperatureReader], [create_temp_icon]
    and [HWTempMonitor] (cpu_temp_monitor.py), followed by the properties of
    the tick that the specification states.

    Conventions of the embedding.
    - A value decoded by [json.loads] is a [json]; Python's [None] is [JNull].
    - A JSON number is modelled by its exact rational value (type [Q]).  The
      comparisons, [int(...)] and the [.0f] format of a finite float are exact
      functions of that value, so nothing is lost for finite numbers; NaN and
      the infinities are outside the model.
    - A Python [str] is a Rocq [string] (a sequence of bytes, UTF-8 for text
      outside ASCII).
    - A Python exception is a [Raise] result; mutable objects are records
      threaded through the functions; what the program does to the outside
      world (probing the DLL file, starting the helper, printing, sending a
      notification) is recorded as a list of [event]s, and what the outside
      world answers during one tick is an [env]. *)

From Stdlib Require Import ZArith QArith Qabs Qround String Ascii List Bool.
From Stdlib Require Import Lia Lqa DecimalString.
Import ListNotations.

Local Open Scope string_scope.
Local Open Scope list_scope.

(** ** Python values and the built-ins the program uses *)
Module Py.

#[local] Set Warnings "-register-all".

Inductive json : Type :=
| JNull
| JBool (b : bool)
| JNum (q : Q)
| JStr (s : string)
| JArr (items : list json)
| JObj (fields : list (string * json)).

Inductive exn : Type :=
| AttributeError
| TypeError
| ValueError.

Inductive result (A : Type) : Type :=
| Ok (a : A)
| Raise (e : exn).
Arguments Ok {A} a.
Arguments Raise {A} e.

Definition bind {A B : Type} (r : result A) (k : A -> result B) : result B :=
  match r with
  | Ok a => k a
  | Raise e => Raise e
  end.

Definition raises {A : Type} (r : result A) : bool :=
  match r with
  | Ok _ => false
  | Raise _ => true
  end.

(** [x is None] *)
Definition is_none (v : json) : bool :=
  match v with
  | JNull => true
  | _ => false
  end.

Definition nonempty_string (s : string) : bool :=
  match s with
  | EmptyString => false
  | String _ _ => true
  end.

Definition nonempty {A : Type} (l : list A) : bool :=
  match l with
  | [] => false
  | _ :: _ => true
  end.

(** [bool(v)]: the truth value Python gives to a decoded value. *)
Definition truthy (v : json) : bool :=
  match v with
  | JNull => false
  | JBool b => b
  | JNum q => negb (Qeq_bool q 0)
  | JStr s => nonempty_string s
  | JArr items => nonempty items
  | JObj fields => nonempty fields
  end.

(** A decoded object is kept as the list of its bindings, one per key, and
    read by key. *)
Fixpoint lookup (k : string) (fields : list (string * json)) : option json :=
  match fields with
  | [] => None
  | (k', v) :: rest => if String.eqb k k' then Some v else lookup k rest
  end.

(** [d.get(k, default)]: only a dict has [get]. *)
Definition get (d : json) (k : string) (default : json) : result json :=
  match d with
  | JObj fields =>
      match lookup k fields with
      | Some v => Ok v
      | None => Ok default
      end
  | _ => Raise AttributeError
  end.

(** [for x in v]: a list yields its items, a dict its keys, a str its
    characters; nothing else is iterable. *)
Definition iter (v : json) : result (list json) :=
  match v with
  | JArr items => Ok items
  | JObj fields => Ok (map (fun kv => JStr (fst kv)) fields)
  | JStr s => Ok (map (fun c => JStr (String c EmptyString)) (list_ascii_of_string s))
  | _ => Raise TypeError
  end.

(** The numeric value of an int, a float or a bool ([bool] is a subclass
    of [int]); [None] for every other value. *)
Definition number (v : json) : option Q :=
  match v with
  | JNum q => Some q
  | JBool true => Some 1%Q
  | JBool false => Some 0%Q
  | _ => None
  end.

(** [v >= c] for an int constant [c]. *)
Definition ge (v : json) (c : Z) : result bool :=
  match number v with
  | Some q => Ok (Qle_bool (inject_Z c) q)
  | None => Raise TypeError
  end.

(** [str(z)] for an int. *)
Definition str_of_int (z : Z) : string :=
  NilZero.string_of_int (Z.to_int z).

(** [int(x)] for a float: truncation toward zero. *)
Definition int_of (x : Q) : Z :=
  Z.quot (Qnum x) (Zpos (Qden x)).

(** Rounding of a non-negative value to an integer, ties to even. *)
Definition round_half_even (x : Q) : Z :=
  let f := Qfloor x in
  match Qcompare (x - inject_Z f) (1 # 2) with
  | Lt => f
  | Gt => (f + 1)%Z
  | Eq => if Z.even f then f else (f + 1)%Z
  end.

(** [f"{x:.0f}"] for a number: the sign, then the magnitude rounded
    half-to-even ([-0.4] prints as [-0]). *)
Definition format_0f_num (x : Q) : string :=
  match Qcompare x 0 with
  | Lt => "-" ++ str_of_int (round_half_even (- x))
  | _ => str_of_int (round_half_even x)
  end.

(** [f"{v:.0f}"]: a str rejects the format code, other non-numbers have no
    such format. *)
Definition format_0f (v : json) : result string :=
  match number v with
  | Some q => Ok (format_0f_num q)
  | None =>
      match v with
      | JStr _ => Raise ValueError
      | _ => Raise TypeError
      end
  end.

(** [len(v)] *)
Definition len (v : json) : result nat :=
  match v with
  | JStr s => Ok (String.length s)
  | JArr items => Ok (List.length items)
  | JObj fields => Ok (List.length fields)
  | _ => Raise TypeError
  end.

(** [v[:n]]: a str or a list can be sliced, a dict cannot (TypeError up to
    Python 3.11; from 3.12 on the failure is a KeyError, which the model
    does not tell apart). *)
Definition slice_to (n : nat) (v : json) : result json :=
  match v with
  | JStr s => Ok (JStr (String.substring 0 n s))
  | JArr items => Ok (JArr (firstn n items))
  | _ => Raise TypeError
  end.

(** [sep.join(parts)] *)
Fixpoint join (sep : string) (parts : list string) : string :=
  match parts with
  | [] => EmptyString
  | [p] => p
  | p :: rest => p ++ sep ++ join sep rest
  end.

(** [needle in hay] for two strs. *)
Fixpoint contains (needle hay : string) : bool :=
  if String.prefix needle hay then true
  else match hay with
       | EmptyString => false
       | String _ rest => contains needle rest
       end.

End Py.

Import Py.

Declare Scope py_scope.
Delimit Scope py_scope with py.
Notation "x <- r ;; k" := (Py.bind r (fun x => k))
  (at level 61, r at next level, right associativity) : py_scope.
Local Open Scope py_scope.

(** The line feed of ["\n"]. *)
Definition LF : string := String (ascii_of_nat 10) EmptyString.

(** ** Configuration (cpu_temp_monitor.py, lines 53-62) *)

Definition TEMP_CRITICAL_CPU : Z := 90.
Definition TEMP_CRITICAL_GPU : Z := 85.
Definition TEMP_CRITICAL_SSD : Z := 70.
Definition UPDATE_INTERVAL : Z := 3.
Definition NOTIFICATION_COOLDOWN : Z := 60.

(** ** The outside world *)

(** What [result.stdout.strip()] holds and what [json.loads] makes of it. *)
Inductive stdout : Type :=
| NoOutput                       (* the stripped text is empty *)
| NotJson (err : string)         (* json.loads raises JSONDecodeError(err) *)
| Document (data : json).        (* json.loads returns data *)

(** How the [try] block of [_run_powershell] goes once the helper is
    started with [subprocess.run(..., timeout=10)]. *)
Inductive helper_outcome : Type :=
| Timeout                                  (* subprocess.TimeoutExpired *)
| Failed (msg : string)                    (* any other exception e of the block, msg = str(e) *)
| Exited (out : stdout) (stderr : string). (* the helper ends; stderr is result.stderr.strip() *)

(** The answers of the outside world during one tick: whether the DLL file
    exists, how the helper ends if it is started, and what [time.time()]
    returns. *)
Record env : Type := mkEnv {
  dll_exists : bool;
  helper : helper_outcome;
  now : Q
}.

(** What the program does to the outside world. *)
Inductive event : Type :=
| DllProbed                                  (* DLL_PATH.exists() *)
| HelperRun                                  (* subprocess.run([...]) *)
| PollErrorPrinted (msg : string)            (* print(f"Error: {last_error}"), line 386 *)
| Notified (title message : string) (critical : bool)   (* send_notification(...) *)
| ExceptionPrinted (e : exn).                (* print(f"Error: {e}"), line 429 *)

(** ** HardwareTemperatureReader (lines 150-222) *)

Record reader : Type := mkReader {
  last_error : option string;
  dll_available : bool
}.

Definition set_last_error (msg : string) (rd : reader) : reader :=
  {| last_error := Some msg; dll_available := dll_available rd |}.

Definition set_dll_available (b : bool) (rd : reader) : reader :=
  {| last_error := last_error rd; dll_available := b |}.

(** [HardwareTemperatureReader.__init__]; [exists0] is what
    [DLL_PATH.exists()] answers at construction. *)
Definition reader_init (exists0 : bool) : reader :=
  {| last_error := None; dll_available := exists0 |}.

(** Lines 163-195: the [try] block of [_run_powershell]. *)
Definition run_helper (e : env) (rd : reader) : json * reader * list event :=
  match helper e with
  | Exited (Document data) _ => (data, rd, [HelperRun])
  | Exited (NotJson err) _ => (JNull, set_last_error ("JSON Parse Error: " ++ err)%string rd, [HelperRun])
  | Exited NoOutput stderr =>
      (JNull, if nonempty_string stderr then set_last_error stderr rd else rd, [HelperRun])
  | Timeout => (JNull, set_last_error "Timeout reading temperature" rd, [HelperRun])
  | Failed msg => (JNull, set_last_error msg rd, [HelperRun])
  end.

(** [HardwareTemperatureReader._run_powershell]: the decoded document, or
    [None]. *)
Definition _run_powershell (e : env) (rd : reader) : json * reader * list event :=
  if dll_available rd then run_helper e rd
  else
    let rd1 := set_dll_available (dll_exists e) rd in
    if dll_available rd1 then
      let '(data, rd2, tr) := run_helper e rd1 in (data, rd2, DllProbed :: tr)
    else (JNull, rd1, [DllProbed]).

(** One entry of [result['ssds']]. *)
Record ssd_entry : Type := mkSsd {
  name : json;
  temp : json
}.

(** The dict that [get_temperatures] builds on success. *)
Record reading : Type := mkReading {
  cpu : json;
  cpu_name : json;
  gpu : json;
  gpu_name : json;
  ssds : list ssd_entry
}.

(** What [get_temperatures] returns: [None] is the empty dict, [Some r] the
    five-key dict. *)
Definition temps_dict : Type := option reading.

(** Lines 212-217: the loop over [data.get('ssds', [])]. *)
Fixpoint collect_ssds (items : list json) : result (list ssd_entry) :=
  match items with
  | [] => Ok []
  | ssd :: rest =>
      t <- get ssd "temp" JNull ;;
      if is_none t then collect_ssds rest
      else
        n <- get ssd "name" (JStr "SSD") ;;
        t' <- get ssd "temp" JNull ;;
        tail <- collect_ssds rest ;;
        Ok ({| name := n; temp := t' |} :: tail)
  end.

(** Lines 201-219: what [get_temperatures] makes of the decoded document. *)
Definition extract (data : json) : result temps_dict :=
  if negb (truthy data) then Ok None
  else
    success <- get data "success" JNull ;;
    if negb (truthy success) then Ok None
    else
      c <- get data "cpu" (JObj []) ;;
      c_temp <- get c "temp" JNull ;;
      c_name <- get c "name" (JStr "CPU") ;;
      g <- get data "gpu" (JObj []) ;;
      g_temp <- get g "temp" JNull ;;
      g_name <- get g "name" (JStr "GPU") ;;
      src <- get data "ssds" (JArr []) ;;
      items <- iter src ;;
      l <- collect_ssds items ;;
      Ok (Some {| cpu := c_temp; cpu_name := c_name;
                  gpu := g_temp; gpu_name := g_name; ssds := l |}).

(** [HardwareTemperatureReader.get_temperatures] *)
Definition get_temperatures (e : env) (rd : reader)
  : result temps_dict * reader * list event :=
  let '(data, rd', tr) := _run_powershell e rd in
  (extract data, rd', tr).

(** ** The tray glyph (create_temp_icon, lines 228-266) *)

Definition color : Type := (Z * Z * Z)%type.

Definition GREY : color := (108, 117, 125)%Z.
Definition RED : color := (220, 53, 69)%Z.
Definition AMBER : color := (255, 193, 7)%Z.
Definition GREEN : color := (40, 167, 69)%Z.

(** What [create_temp_icon] draws: the fill of the disc and the text on it
    (the pixels themselves are not modelled). *)
Record glyph : Type := mkGlyph {
  bg_color : color;
  temp_text : string
}.

Definition create_temp_icon (temp : option Q) (warning critical no_data : bool) : glyph :=
  {| bg_color :=
       if no_data then GREY
       else if critical then RED
       else if warning then AMBER
       else GREEN;
     temp_text :=
       match temp with
       | Some t => str_of_int (int_of t)
       | None => "?"
       end |}.

(** The [pystray.Icon] the monitor owns: its image and its hover text. *)
Record tray_icon : Type := mkTray {
  image : glyph;
  title : string
}.

(** ** HWTempMonitor (lines 341-466) *)

Record monitor : Type := mkMonitor {
  running : bool;
  temp_reader : reader;
  temps : temps_dict;
  last_notification_time : Q;
  icon : option tray_icon;
  error_shown : bool;
  critical_count : Z
}.

(** [HWTempMonitor.__init__] *)
Definition monitor_init (exists0 : bool) : monitor :=
  {| running := true;
     temp_reader := reader_init exists0;
     temps := None;
     last_notification_time := 0;
     icon := None;
     error_shown := false;
     critical_count := 0 |}.

(** [HWTempMonitor.run], up to the start of the monitoring thread. *)
Definition run (m : monitor) : monitor :=
  {| running := running m;
     temp_reader := temp_reader m;
     temps := temps m;
     last_notification_time := last_notification_time m;
     icon := Some {| image := create_temp_icon None false false true;
                     title := "HW Temp Monitor" |};
     error_shown := error_shown m;
     critical_count := critical_count m |}.

Definition set_poll (t : temps_dict) (rd : reader) (m : monitor) : monitor :=
  {| running := running m; temp_reader := rd; temps := t;
     last_notification_time := last_notification_time m; icon := icon m;
     error_shown := error_shown m; critical_count := critical_count m |}.

Definition set_reader (rd : reader) (m : monitor) : monitor :=
  {| running := running m; temp_reader := rd; temps := temps m;
     last_notification_time := last_notification_time m; icon := icon m;
     error_shown := error_shown m; critical_count := critical_count m |}.

Definition set_error_shown (b : bool) (m : monitor) : monitor :=
  {| running := running m; temp_reader := temp_reader m; temps := temps m;
     last_notification_time := last_notification_time m; icon := icon m;
     error_shown := b; critical_count := critical_count m |}.

Definition set_critical_count (n : Z) (m : monitor) : monitor :=
  {| running := running m; temp_reader := temp_reader m; temps := temps m;
     last_notification_time := last_notification_time m; icon := icon m;
     error_shown := error_shown m; critical_count := n |}.

Definition set_last_notification_time (t : Q) (m : monitor) : monitor :=
  {| running := running m; temp_reader := temp_reader m; temps := temps m;
     last_notification_time := t; icon := icon m;
     error_shown := error_shown m; critical_count := critical_count m |}.

Definition set_icon (ic : tray_icon) (m : monitor) : monitor :=
  {| running := running m; temp_reader := temp_reader m; temps := temps m;
     last_notification_time := last_notification_time m; icon := Some ic;
     error_shown := error_shown m; critical_count := critical_count m |}.

(** [self.temps.get('cpu')], [self.temps.get('gpu')] and
    [self.temps.get('ssds', [])]: the empty dict answers [None] and [[]]. *)
Definition temps_cpu (t : temps_dict) : json :=
  match t with Some r => cpu r | None => JNull end.

Definition temps_gpu (t : temps_dict) : json :=
  match t with Some r => gpu r | None => JNull end.

Definition temps_ssds (t : temps_dict) : list ssd_entry :=
  match t with Some r => ssds r | None => [] end.

(** [bool(self.temps)]: the five-key dict is true, the empty dict false. *)
Definition temps_truthy (t : temps_dict) : bool :=
  match t with Some _ => true | None => false end.

(** Lines 385-386: [if self.temp_reader.last_error: print(...)]; [None] and
    the empty str are false. *)
Definition print_last_error (rd : reader) : list event :=
  match last_error rd with
  | Some s => if nonempty_string s then [PollErrorPrinted s] else []
  | None => []
  end.

Definition DEGREES : string := "°C".

(** Lines 395-401: the CPU or GPU entry of [critical_components]. *)
Definition critical_line (label : string) (v : json) (threshold : Z)
  : result (list string) :=
  if is_none v then Ok []
  else
    b <- ge v threshold ;;
    if b then s <- format_0f v ;; Ok [(label ++ ": " ++ s ++ DEGREES)%string]
    else Ok [].

(** Lines 403-405: the entries of the storage devices. *)
Fixpoint critical_ssds (l : list ssd_entry) : result (list string) :=
  match l with
  | [] => Ok []
  | ssd :: rest =>
      b <- ge (temp ssd) TEMP_CRITICAL_SSD ;;
      here <- (if b then s <- format_0f (temp ssd) ;; Ok [("SSD: " ++ s ++ DEGREES)%string]
               else Ok []) ;;
      tail <- critical_ssds rest ;;
      Ok (here ++ tail)
  end.

(** Lines 393-405: the list [critical_components]. *)
Definition critical_components (t : temps_dict) : result (list string) :=
  c <- critical_line "CPU" (temps_cpu t) TEMP_CRITICAL_CPU ;;
  g <- critical_line "GPU" (temps_gpu t) TEMP_CRITICAL_GPU ;;
  s <- critical_ssds (temps_ssds t) ;;
  Ok (c ++ g ++ s).

Definition ALERT_TITLE : string := "🔥 CRITICAL TEMPERATURE!".

(** The message of line 418. *)
Definition alert_message (critical_components : list string) : string :=
  join LF critical_components ++ LF ++ "Check your system cooling!".

(** Lines 407-421: the counter and the alert. *)
Definition alert_step (current_time : Q) (critical_components : list string)
  (m : monitor) : monitor * list event :=
  let time_since_last := (current_time - last_notification_time m)%Q in
  let m1 :=
    if nonempty critical_components
    then set_critical_count (critical_count m + 1) m
    else set_critical_count 0 m in
  if (2 <=? critical_count m1)%Z
     && Qle_bool (inject_Z NOTIFICATION_COOLDOWN) time_since_last
  then (set_last_notification_time current_time m1,
        [Notified ALERT_TITLE (alert_message critical_components) true])
  else (m1, []).

(** [HWTempMonitor.check_temperatures] *)
Definition check_temperatures (e : env) (m : monitor)
  : result unit * monitor * list event :=
  let '(r, rd, tr) := get_temperatures e (temp_reader m) in
  match r with
  | Raise x => (Raise x, set_reader rd m, tr)
  | Ok t =>
      let m1 := set_poll t rd m in
      if negb (temps_truthy t) && negb (error_shown m1) then
        (Ok tt, set_error_shown true m1, tr ++ print_last_error rd)
      else
        let m2 := if temps_truthy t then set_error_shown false m1 else m1 in
        match critical_components t with
        | Raise x => (Raise x, m2, tr)
        | Ok cs =>
            let '(m3, out) := alert_step (now e) cs m2 in
            (Ok tt, m3, tr ++ out)
        end
  end.

(** Lines 358-360: the value the glyph shows. *)
Definition display_temp (t : temps_dict) : json :=
  if is_none (temps_cpu t) then temps_gpu t else temps_cpu t.

(** [v is not None and v >= c] *)
Definition not_none_and_ge (v : json) (c : Z) : result bool :=
  if is_none v then Ok false else ge v c.

(** The argument [create_temp_icon] receives: [None], or the number that
    passed the two comparisons before the call. *)
Definition as_float (v : json) : option Q := number v.

(** Line 376: [ssd['name'][:15] if len(ssd['name']) > 15 else ssd['name']] *)
Definition short_name (ssd : ssd_entry) : result json :=
  n <- len (name ssd) ;;
  if (15 <? n)%nat then slice_to 15 (name ssd) else Ok (name ssd).

(** Lines 371-374: the CPU or GPU line of the tooltip. *)
Definition tooltip_line (label : string) (v : json) : result (list string) :=
  if is_none v then Ok []
  else s <- format_0f v ;; Ok [(label ++ ": " ++ s ++ DEGREES)%string].

(** Lines 375-377: the lines of the storage devices; [name] is computed and
    not used. *)
Fixpoint tooltip_ssds (l : list ssd_entry) : result (list string) :=
  match l with
  | [] => Ok []
  | ssd :: rest =>
      name <- short_name ssd ;;
      s <- format_0f (temp ssd) ;;
      tail <- tooltip_ssds rest ;;
      Ok (("SSD: " ++ s ++ DEGREES)%string :: tail)
  end.

(** Lines 370-377: the list [lines]. *)
Definition tooltip_lines (t : temps_dict) : result (list string) :=
  c <- tooltip_line "CPU" (temps_cpu t) ;;
  g <- tooltip_line "GPU" (temps_gpu t) ;;
  s <- tooltip_ssds (temps_ssds t) ;;
  Ok (c ++ g ++ s)%list.

(** Line 379 *)
Definition tooltip_text (lines : list string) : string :=
  if nonempty lines then join " | " lines else "No data".

(** Lines 358-366: the new image, when the two comparisons do not raise. *)
Definition new_image (t : temps_dict) : result glyph :=
  let d := display_temp t in
  let no_data := is_none d in
  warning <- not_none_and_ge d 80 ;;
  critical <- not_none_and_ge d TEMP_CRITICAL_CPU ;;
  Ok (create_temp_icon (as_float d) warning critical no_data).

(** [HWTempMonitor.update_icon] *)
Definition update_icon (m : monitor) : result unit * monitor :=
  match icon m with
  | None => (Ok tt, m)
  | Some ic =>
      match new_image (temps m) with
      | Raise x => (Raise x, m)
      | Ok new_icon =>
          let ic1 := {| image := new_icon; title := title ic |} in
          match tooltip_lines (temps m) with
          | Raise x => (Raise x, set_icon ic1 m)
          | Ok lines =>
              (Ok tt, set_icon {| image := new_icon; title := tooltip_text lines |} m)
          end
      end
  end.

(** Lines 425-429: the body of the loop of [monitoring_loop]. *)
Definition tick (e : env) (m : monitor) : monitor * list event :=
  let '(r, m1, tr) := check_temperatures e m in
  match r with
  | Raise x => (m1, tr ++ [ExceptionPrinted x])%list
  | Ok _ =>
      let '(r2, m2) := update_icon m1 in
      match r2 with
      | Raise x => (m2, tr ++ [ExceptionPrinted x])%list
      | Ok _ => (m2, tr)
      end
  end.

(** [HWTempMonitor.monitoring_loop] over the answers of the outside world to
    its first ticks; the result lists the events of each tick. *)
Fixpoint monitoring_loop (envs : list env) (m : monitor)
  : monitor * list (list event) :=
  match envs with
  | [] => (m, [])
  | e :: rest =>
      if running m then
        let '(m1, tr) := tick e m in
        let '(m2, trs) := monitoring_loop rest m1 in
        (m2, tr :: trs)
      else (m, [])
  end.

(** ** Vocabulary of the specification *)

(** The severity the glyph shows (specification, 4.3: Grey = NoData,
    Green = Normal, Amber = Warning, Red = Critical). *)
Inductive tier : Type :=
| NoData
| Normal
| Warning
| Critical.

Definition tier_color (t : tier) : color :=
  match t with
  | NoData => GREY
  | Normal => GREEN
  | Warning => AMBER
  | Critical => RED
  end.

(** Specification, 4.2 step 6: the CPU temperature if present, else the GPU
    temperature if present, else absent. *)
Definition spec_display_value (cpu_value gpu_value : option Q) : option Q :=
  match cpu_value with
  | Some v => Some v
  | None => gpu_value
  end.

(** Specification, 4.2 step 6: the tier of the glyph, fixed 80/90 boundaries. *)
Definition spec_glyph_tier (display_value : option Q) : tier :=
  match display_value with
  | None => NoData
  | Some v =>
      if Qle_bool 90 v then Critical
      else if Qle_bool 80 v then Warning
      else Normal
  end.

(** [z] is an integer nearest to [v]. *)
Definition nearest_integer (z : Z) (v : Q) : Prop :=
  (Qabs (v - inject_Z z) <= 1 # 2)%Q.

(** A value that is a number or [None]. *)
Definition number_or_none (v : json) : bool :=
  match v with
  | JNull | JNum _ | JBool _ => true
  | _ => false
  end.

(** The events of one kind in the trace of a tick. *)
Definition poll_errors (tr : list event) : list string :=
  flat_map (fun ev => match ev with PollErrorPrinted msg => [msg] | _ => [] end) tr.

Definition alerts (tr : list event) : list string :=
  flat_map (fun ev => match ev with Notified _ msg _ => [msg] | _ => [] end) tr.

Definition probes (tr : list event) : nat :=
  List.length (filter (fun ev => match ev with DllProbed => true | _ => false end) tr).

Definition helper_runs (tr : list event) : nat :=
  List.length (filter (fun ev => match ev with HelperRun => true | _ => false end) tr).

(** What line 386 prints for a reader: its [last_error], when it has one
    that is not empty. *)
Definition printed_cause (rd : reader) : list string :=
  match last_error rd with
  | Some s => if nonempty_string s then [s] else []
  | None => []
  end.

(** The poll of this tick yields the empty dict. *)
Definition poll_failed (e : env) (m : monitor) : bool :=
  match get_temperatures e (temp_reader m) with
  | (Ok None, _, _) => true
  | _ => false
  end.

(** The poll of this tick yields a reading (the five-key dict). *)
Definition poll_succeeded (e : env) (m : monitor) : bool :=
  match get_temperatures e (temp_reader m) with
  | (Ok (Some _), _, _) => true
  | _ => false
  end.

(** The reader as the poll of this tick leaves it. *)
Definition reader_after (e : env) (m : monitor) : reader :=
  snd (fst (get_temperatures e (temp_reader m))).

(** Every poll of the run yields the empty dict. *)
Fixpoint all_failing (envs : list env) (m : monitor) : bool :=
  match envs with
  | [] => true
  | e :: rest => poll_failed e m && all_failing rest (fst (tick e m))
  end.

(** Successive polls of one reader: the documents returned and the events. *)
Fixpoint polls (envs : list env) (rd : reader) : list json * list event :=
  match envs with
  | [] => ([], [])
  | e :: rest =>
      let '(data, rd1, tr) := _run_powershell e rd in
      let '(ds, trs) := polls rest rd1 in
      (data :: ds, tr ++ trs)
  end.

(** The document has the shape of the helper's interface (specification, 6):
    an object whose [cpu] and [gpu], when given, are objects and whose
    [ssds], when given, is an array of objects. *)
Definition is_object (v : json) : bool :=
  match v with JObj _ => true | _ => false end.

Definition field_ok (ok : json -> bool) (k : string) (fields : list (string * json)) : bool :=
  match lookup k fields with
  | Some v => ok v
  | None => true
  end.

Definition well_shaped (data : json) : bool :=
  match data with
  | JObj fields =>
      field_ok is_object "cpu" fields
      && field_ok is_object "gpu" fields
      && field_ok (fun v => match v with
                            | JArr items => forallb is_object items
                            | _ => false
                            end) "ssds" fields
  | _ => false
  end.

(** The helper ends without a document, or with one of the expected shape. *)
Definition outcome_well_shaped (o : helper_outcome) : bool :=
  match o with
  | Exited (Document data) _ => well_shaped data
  | _ => true
  end.

(** The value of a field of an object, or [default]. *)
Definition field (o : json) (k : string) (default : json) : json :=
  match o with
  | JObj fields =>
      match lookup k fields with
      | Some v => v
      | None => default
      end
  | _ => default
  end.

(** A storage entry of the document that has a temperature value, and the
    entry of the reading it becomes. *)
Definition has_temp (o : json) : bool :=
  negb (is_none (field o "temp" JNull)).

Definition entry_of (o : json) : ssd_entry :=
  {| name := field o "name" (JStr "SSD"); temp := field o "temp" JNull |}.

(** The document says that the helper did not succeed: it is false as a
    whole, or it is an object whose [success] is missing or false. *)
Definition reports_no_success (data : json) : bool :=
  negb (truthy data)
  || (is_object data && negb (truthy (field data "success" JNull))).

(** The helper ends without a document that reports success. *)
Definition helper_fails (o : helper_outcome) : bool :=
  match o with
  | Exited (Document data) _ => reports_no_success data
  | _ => true
  end.

(** The helper is started in this poll: the DLL is cached as present, or it
    is found now. *)
Definition helper_started (e : env) (rd : reader) : bool :=
  dll_available rd || dll_exists e.

(** ** Sample documents and runs *)

Definition sensor (n : string) (t : json) : json :=
  JObj [("name", JStr n); ("temp", t)].

(** A document of the helper reporting success. *)
Definition document (c g : json) (storage : list json) : json :=
  JObj [("success", JBool true); ("cpu", sensor "CPU" c);
        ("gpu", sensor "GPU" g); ("ssds", JArr storage)].

(** The tick at time [t] in which the DLL is there and the helper prints
    [data]. *)
Definition answers (data : json) (t : Q) : env :=
  {| dll_exists := true; helper := Exited (Document data) EmptyString; now := t |}.

(** The tick at time [t] in which the helper does not end in ten seconds. *)
Definition times_out (t : Q) : env :=
  {| dll_exists := true; helper := Timeout; now := t |}.

(** The monitor when the monitoring thread starts; the DLL was there. *)
Definition started : monitor := run (monitor_init true).

(** Scenario A of the specification: CPU 92, GPU 60, no storage device. *)
Definition scenario_A : json := document (JNum 92) (JNum 60) [].

(** CPU 50 and one storage device at 75. *)
Definition hot_storage : json :=
  document (JNum 50) JNull [sensor "NVMe0" (JNum 75)].

(** A document that reports failure. *)
Definition no_success : json := JObj [("success", JBool false)].

(** A document whose [cpu] is [null]. *)
Definition null_cpu : json := JObj [("success", JBool true); ("cpu", JNull)].

(** A reading with no CPU, no GPU and one storage device at 40 whose label
    has 23 characters. *)
Definition long_label : temps_dict :=
  Some {| cpu := JNull; cpu_name := JStr "CPU"; gpu := JNull; gpu_name := JStr "GPU";
          ssds := [{| name := JStr "Samsung SSD 980 PRO 1TB"; temp := JNum 40 |}] |}.

(** The double nearest to 79.6. *)
Definition v79_6 : Q := 2800676018271027 # 35184372088832.

(** ** HWTempMonitor.quit_app (lines 433-437) *)

Definition set_running (b : bool) (m : monitor) : monitor :=
  {| running := b; temp_reader := temp_reader m; temps := temps m;
     last_notification_time := last_notification_time m; icon := icon m;
     error_shown := error_shown m; critical_count := critical_count m |}.

(** [quit_app]: the flag of the loop is cleared, [close] does nothing, and
    the boolean tells whether [self.icon.stop()] is called. *)
Definition quit_app (m : monitor) : monitor * bool :=
  (set_running false m,
   match icon m with Some _ => true | None => false end).

(** ** Readings and runs, for the properties of the tick *)










(** Lines 427-429: what the body of the loop does with the outcome of
    [check_temperatures]; [tick] is [finish_tick] of that outcome. *)
Definition finish_tick (r : result unit) (m1 : monitor) (tr : list event)
  : monitor * list event :=
  match r with
  | Raise x => (m1, tr ++ [ExceptionPrinted x])%list
  | Ok _ =>
      match update_icon m1 with
      | (Raise x, m2) => (m2, tr ++ [ExceptionPrinted x])%list
      | (Ok _, m2) => (m2, tr)
      end
  end.

(** The exceptions the loop prints in a tick. *)
Definition exceptions (tr : list event) : list exn :=
  flat_map (fun ev => match ev with ExceptionPrinted x => [x] | _ => [] end) tr.

(** The times of the ticks of a run that sent the alert. *)
Fixpoint alert_times (envs : list env) (trs : list (list event)) : list Q :=
  match envs, trs with
  | e :: es, tr :: ts =>
      (if nonempty (alerts tr) then [now e] else []) ++ alert_times es ts
  | _, _ => []
  end.

(** Every time of the list is at least [gap] after the one before it, the
    first one after [last]. *)
Fixpoint spaced (gap : Q) (last : Q) (times : list Q) : Prop :=
  match times with
  | [] => True
  | t :: rest => (last + gap <= t)%Q /\ spaced gap t rest
  end.

(** ** Strings of the autostart command *)

Definition QUOTE : string := String (ascii_of_nat 34) EmptyString.

(** [s.endswith(suffix)] *)
Definition ends_with (suffix s : string) : bool :=
  (String.length suffix <=? String.length s)%nat
  && String.eqb
       (String.substring (String.length s - String.length suffix)
          (String.length suffix) s)
       suffix.

(** [s.replace(old, new)] for a non-empty [old]: the occurrences of [old]
    from left to right, without overlap.  [fuel] bounds the steps; the
    length of [s] plus one is enough. *)
Fixpoint replace_from (fuel : nat) (old new s : string) : string :=
  match fuel with
  | O => s
  | S fuel' =>
      if String.prefix old s
      then new ++ replace_from fuel' old new
                    (String.substring (String.length old)
                       (String.length s - String.length old) s)
      else match s with
           | EmptyString => EmptyString
           | String c rest => String c (replace_from fuel' old new rest)
           end
  end.

Definition replace (old new s : string) : string :=
  replace_from (S (String.length s)) old new s.

(** ** Autostart (lines 288-335) *)
Module Autostart.

Definition APP_NAME : string := "HWTempMonitor".

(** The per-user Run key as the program sees it: whether [winreg.OpenKey]
    with [KEY_ALL_ACCESS] raises (and with what text), and the value stored
    under [APP_NAME], if any.  Setting and deleting a value of a key that
    was opened succeed. *)
Record run_key : Type := mkRunKey {
  open_error : option string;
  app_value : option string
}.

(** [is_autostart_enabled] *)
Definition is_autostart_enabled (k : run_key) : bool :=
  match open_error k, app_value k with
  | None, Some _ => true
  | _, _ => false
  end.

(** Lines 310-314: the command stored; [script_path] is
    [os.path.abspath(sys.argv[0])] and [executable] is [sys.executable]. *)
Definition command (script_path executable : string) : string :=
  if ends_with ".py" script_path
  then QUOTE ++ replace "python.exe" "pythonw.exe" executable ++ QUOTE
       ++ " " ++ QUOTE ++ script_path ++ QUOTE
  else QUOTE ++ script_path ++ QUOTE.

(** [enable_autostart] *)
Definition enable_autostart (script_path executable : string) (k : run_key)
  : run_key * list event :=
  match open_error k with
  | Some msg =>
      (k, [Notified "Error" ("Could not enable autostart: " ++ msg) false])
  | None =>
      ({| open_error := None; app_value := Some (command script_path executable) |},
       [Notified "Autostart" "✅ Autostart enabled" false])
  end.

(** [disable_autostart] *)
Definition disable_autostart (k : run_key) : run_key * list event :=
  match open_error k, app_value k with
  | None, Some _ =>
      ({| open_error := None; app_value := None |},
       [Notified "Autostart" "❌ Autostart disabled" false])
  | _, _ => (k, [])
  end.

(** [toggle_autostart] *)
Definition toggle_autostart (script_path executable : string) (k : run_key)
  : run_key * list event :=
  if is_autostart_enabled k then disable_autostart k
  else enable_autostart script_path executable k.

End Autostart.

(** ** The download of the DLL (lines 79-144) *)
Module Download.

Definition DLL_NAME : string := "LibreHardwareMonitorLib.dll".

(** [response.headers.get('content-length', 0)] and what [int] makes of it. *)
Inductive header : Type :=
| NoHeader                      (* the default 0 *)
| HeaderInt (n : Z)             (* int(text) = n *)
| HeaderBad (msg : string).     (* int(text) raises ValueError(msg) *)

(** One answer of [response.read(8192)]. *)
Inductive read_answer : Type :=
| Chunk (bytes : string)
| ReadRaises (msg : string).

(** A member of the archive: [zf.open(name)] raises, or [src.read()] raises,
    or [src.read()] returns the content. *)
Inductive member : Type :=
| Unopenable (msg : string)
| Unreadable (msg : string)
| Body (content : string).

(** What [zipfile.ZipFile(io.BytesIO(data))] makes of the bytes: it raises,
    or it lists the members in the order of the archive. *)
Inductive archive : Type :=
| BadZip (msg : string)
| Members (l : list (string * member)).

(** The answers of the outside world during one download. *)
Record env : Type := mkEnv {
  urlopen_error : option string;        (* urlopen raises *)
  content_length : header;
  reads : list read_answer;             (* then b'' for ever *)
  unzip : string -> archive;
  dll_open_error : option string        (* open(DLL_PATH, 'wb') raises *)
}.

Inductive event : Type :=
| Downloading                            (* print, line 80 *)
| Progress (downloaded total_size : Z)   (* progress_callback(downloaded, total_size) *)
| Extracting                             (* print, line 102 *)
| Saved                                  (* print, line 110 *)
| NotInZip                               (* print, line 113 *)
| DownloadFailed (msg : string)          (* print, line 117 *)
| Required                               (* prints, lines 124-126 *)
| ManualDownload.                        (* prints, lines 136-142 *)

Inductive outcome (A : Type) : Type :=
| Done (a : A)
| Raised (msg : string).
Arguments Done {A} a.
Arguments Raised {A} msg.

(** Lines 90-98: the loop that reads the response. *)
Fixpoint read_chunks (answers : list read_answer) (total_size : Z)
  (callback : bool) (downloaded : Z) (chunks : list string)
  : outcome (list string) * list event :=
  match answers with
  | [] => (Done chunks, [])
  | ReadRaises msg :: _ => (Raised msg, [])
  | Chunk bytes :: rest =>
      if nonempty_string bytes then
        let downloaded' := (downloaded + Z.of_nat (String.length bytes))%Z in
        let report :=
          if (0 <? total_size)%Z && callback
          then [Progress downloaded' total_size] else [] in
        let '(r, evs) :=
          read_chunks rest total_size callback downloaded' (chunks ++ [bytes]) in
        (r, report ++ evs)
      else (Done chunks, [])
  end.

(** [zf.open(name)] for a name the archive lists, [b0] being the member
    listed there: of the members of that name, the last one. *)
Definition open_member (nm : string) (b0 : member) (l : list (string * member))
  : member :=
  last (map snd (filter (fun nb => String.eqb nm (fst nb)) l)) b0.

(** Lines 107-109: the member is opened, the DLL file is opened for writing
    (which empties it), the member is read and written.  The result is the
    exception raised, if any, and the DLL file afterwards. *)
Definition save_member (e : env) (b : member) (dll_file : option string)
  : option string * option string :=
  match b with
  | Unopenable msg => (Some msg, dll_file)
  | Unreadable msg =>
      match dll_open_error e with
      | Some msg' => (Some msg', dll_file)
      | None => (Some msg, Some EmptyString)
      end
  | Body content =>
      match dll_open_error e with
      | Some msg' => (Some msg', dll_file)
      | None => (None, Some content)
      end
  end.

(** [download_lhm_dll]; [callback] tells whether a [progress_callback] is
    given, [dll_file] is the content of the file at [DLL_PATH], if it
    exists. *)
Definition download_lhm_dll (callback : bool) (e : env) (dll_file : option string)
  : bool * option string * list event :=
  match urlopen_error e with
  | Some msg => (false, dll_file, [Downloading; DownloadFailed msg])
  | None =>
      match content_length e with
      | HeaderBad msg => (false, dll_file, [Downloading; DownloadFailed msg])
      | hdr =>
          let total_size := match hdr with HeaderInt n => n | _ => 0%Z end in
          match read_chunks (reads e) total_size callback 0 [] with
          | (Raised msg, evs) =>
              (false, dll_file, Downloading :: evs ++ [DownloadFailed msg])
          | (Done chunks, evs) =>
              let data := String.concat EmptyString chunks in
              match unzip e data with
              | BadZip msg =>
                  (false, dll_file,
                   Downloading :: evs ++ [Extracting; DownloadFailed msg])
              | Members l =>
                  match find (fun nb => ends_with DLL_NAME (fst nb)) l with
                  | None =>
                      (false, dll_file, Downloading :: evs ++ [Extracting; NotInZip])
                  | Some (nm, b0) =>
                      match save_member e (open_member nm b0 l) dll_file with
                      | (Some msg, f) =>
                          (false, f,
                           Downloading :: evs ++ [Extracting; DownloadFailed msg])
                      | (None, f) =>
                          (true, f, Downloading :: evs ++ [Extracting; Saved])
                      end
                  end
              end
          end
      end
  end.

(** [ensure_dll_exists] *)
Definition ensure_dll_exists (e : env) (dll_file : option string)
  : bool * option string * list event :=
  match dll_file with
  | Some _ => (true, dll_file, [])
  | None =>
      let '(ok, f, evs) := download_lhm_dll true e dll_file in
      (ok, f, Required :: evs ++ (if ok then [] else [ManualDownload]))
  end.

(** The progress reports of a trace, and the running sums of the sizes of
    the chunks read after [downloaded] bytes. *)
Definition reports (tr : list event) : list Z :=
  flat_map (fun ev => match ev with Progress d _ => [d] | _ => [] end) tr.

Fixpoint running_sums (downloaded : Z) (chunks : list string) : list Z :=
  match chunks with
  | [] => []
  | c :: rest =>
      let d := (downloaded + Z.of_nat (String.length c))%Z in
      d :: running_sums d rest
  end.

(** The chunks the loop keeps: the answers up to the first empty one. *)
Fixpoint chunks_read (answers : list read_answer) : list string :=
  match answers with
  | Chunk bytes :: rest =>
      if nonempty_string bytes then bytes :: chunks_read rest else []
  | _ => []
  end.

(** No answer of the response before the end of the data raises. *)
Fixpoint reads_ok (answers : list read_answer) : bool :=
  match answers with
  | [] => true
  | ReadRaises _ :: _ => false
  | Chunk bytes :: rest => if nonempty_string bytes then reads_ok rest else true
  end.

End Download.

(** The progress reports of a trace of the download are those of the reads:
    [Happ] distributes [Download.reports] over an append, [Hrep] gives the
    reports of the reads. *)
Ltac reports_through Happ Hrep :=
  cbn [snd Download.reports flat_map app];
  match goal with
  | |- flat_map ?g (?evs ++ ?x) = _ =>
      change (flat_map g (evs ++ x)) with (Download.reports (evs ++ x))
  end;
  rewrite Happ, Hrep, ?app_nil_r; reflexivity.

(** ** The entry point (lines 472-497) *)

(** The script from [ensure_dll_exists] to the start of the monitoring
    thread: [None] when the script leaves with [sys.exit(1)], else the
    monitor as [HWTempMonitor()] and [run] make it; [dll_file] is the DLL
    file when the script starts, and nothing else touches the file between
    [ensure_dll_exists] and the construction of the reader. *)
Definition startup (e : Download.env) (dll_file : option string) : option monitor :=
  let '(ok, f, _) := Download.ensure_dll_exists e dll_file in
  if ok
  then Some (run (monitor_init (match f with Some _ => true | None => false end)))
  else None.

(** ** The reader *)

Lemma run_helper_trace (e : env) (rd : reader) :
  snd (run_helper e rd) = [HelperRun].
Proof.
  unfold run_helper.
  destruct (helper e) as [ | msg | [ | err | data] stderr]; reflexivity.
Qed.

Lemma run_helper_dll (e : env) (rd : reader) :
  dll_available (snd (fst (run_helper e rd))) = dll_available rd.
Proof.
  unfold run_helper.
  destruct (helper e) as [ | msg | [ | err | data] stderr]; try reflexivity.
  simpl. destruct (nonempty_string stderr); reflexivity.
Qed.

Lemma run_powershell_trace (e : env) (rd : reader) :
  snd (_run_powershell e rd) =
  if dll_available rd then [HelperRun]
  else if dll_exists e then [DllProbed; HelperRun]
  else [DllProbed].
Proof.
  unfold _run_powershell.
  destruct (dll_available rd); [apply run_helper_trace | ].
  simpl. destruct (dll_exists e); [ | reflexivity].
  pose proof (run_helper_trace e (set_dll_available true rd)) as H.
  destruct (run_helper e (set_dll_available true rd)) as [[data rd2] tr].
  simpl in *. now rewrite H.
Qed.

Lemma get_temperatures_trace (e : env) (rd : reader) :
  snd (get_temperatures e rd) = snd (_run_powershell e rd).
Proof.
  unfold get_temperatures.
  destruct (_run_powershell e rd) as [[data rd'] tr]. reflexivity.
Qed.

Lemma poll_trace_silent (e : env) (rd : reader) :
  poll_errors (snd (get_temperatures e rd)) = []
  /\ alerts (snd (get_temperatures e rd)) = [].
Proof.
  rewrite get_temperatures_trace, run_powershell_trace.
  destruct (dll_available rd); [ | destruct (dll_exists e)]; split; reflexivity.
Qed.

Lemma poll_trace_no_alert (e : env) (rd : reader) title msg c :
  ~ In (Notified title msg c) (snd (get_temperatures e rd)).
Proof.
  rewrite get_temperatures_trace, run_powershell_trace.
  destruct (dll_available rd); [ | destruct (dll_exists e)];
    simpl; intuition discriminate.
Qed.

(** ** The alert of a tick *)

(** The counter after the step, and what makes the step send the alert. *)
Lemma alert_step_count (t : Q) (cs : list string) (m : monitor) :
  critical_count (fst (alert_step t cs m)) =
  if nonempty cs then (critical_count m + 1)%Z else 0%Z.
Proof.
  unfold alert_step.
  destruct (nonempty cs);
    match goal with |- context [if ?b then _ else _] => destruct b end;
    reflexivity.
Qed.

Lemma alert_step_fires (t : Q) (cs : list string) (m : monitor) ev :
  In ev (snd (alert_step t cs m)) ->
  nonempty cs = true
  /\ (2 <=? critical_count m + 1)%Z = true
  /\ Qle_bool (inject_Z NOTIFICATION_COOLDOWN) (t - last_notification_time m) = true
  /\ alert_step t cs m =
     (set_last_notification_time t (set_critical_count (critical_count m + 1) m),
      [Notified ALERT_TITLE (alert_message cs) true]).
Proof.
  unfold alert_step.
  destruct (nonempty cs); simpl.
  - destruct (2 <=? critical_count m + 1)%Z; simpl; [ | tauto].
    destruct (Qle_bool _ _); simpl; [ | tauto].
    intros _. repeat split.
  - tauto.
Qed.

(** A tick that sends the alert: the poll returned a reading, some component
    is critical, and the state after the tick is the state before it with
    the reading stored, [error_shown] cleared, the counter one higher and the
    time of the alert recorded. *)
Lemma check_temperatures_fires (e : env) (m : monitor) title msg c :
  In (Notified title msg c) (snd (check_temperatures e m)) ->
  exists r rd tr0 cs,
    get_temperatures e (temp_reader m) = (Ok (Some r), rd, tr0)
    /\ critical_components (Some r) = Ok cs
    /\ nonempty cs = true
    /\ (2 <=? critical_count m + 1)%Z = true
    /\ Qle_bool (inject_Z NOTIFICATION_COOLDOWN)
         (now e - last_notification_time m) = true
    /\ check_temperatures e m =
       (Ok tt,
        {| running := running m; temp_reader := rd; temps := Some r;
           last_notification_time := now e; icon := icon m;
           error_shown := false; critical_count := (critical_count m + 1)%Z |},
        (tr0 ++ [Notified ALERT_TITLE (alert_message cs) true])%list).
Proof.
  unfold check_temperatures.
  pose proof (poll_trace_no_alert e (temp_reader m) title msg c) as Hquiet.
  destruct (get_temperatures e (temp_reader m)) as [[r rd] tr0].
  simpl in Hquiet.
  destruct r as [t | x]; [ | simpl; tauto].
  destruct t as [r | ]; simpl.
  - destruct (critical_components (Some r)) as [cs | x] eqn:Hcs; [ | simpl; tauto].
    destruct (alert_step (now e) cs (set_error_shown false (set_poll (Some r) rd m)))
      as [m3 out] eqn:Hstep.
    simpl. intros Hin. apply in_app_or in Hin. destruct Hin as [Hin | Hin]; [tauto | ].
    pose proof (alert_step_fires (now e) cs
                  (set_error_shown false (set_poll (Some r) rd m))
                  (Notified title msg c)) as Hf.
    rewrite Hstep in Hf. simpl in Hf.
    destruct (Hf Hin) as (Hne & Hcount & Hcool & Heq).
    inversion Heq; subst.
    exists r, rd, tr0, cs. repeat split; assumption.
  - destruct (error_shown m); simpl.
    + intros Hin. apply in_app_or in Hin. destruct Hin as [Hin | Hin]; [tauto | ].
      simpl in Hin. tauto.
    + intros Hin. apply in_app_or in Hin. destruct Hin as [Hin | Hin]; [tauto | ].
      unfold print_last_error in Hin.
      destruct (last_error rd) as [s | ]; [destruct (nonempty_string s) | ];
        simpl in Hin; intuition discriminate.
Qed.

(** C1. On every tick, [check_temperatures] sends the critical alert only if
    the list of components at or above their critical threshold this tick
    is not empty, the counter of consecutive critical ticks has reached 2,
    and at least 60 seconds have passed since the last alert sent (0 when
    none was). *)
Theorem alert_requires_debounce_and_cooldown (e : env) (m : monitor) title msg c :
  In (Notified title msg c) (snd (check_temperatures e m)) ->
  let m' := snd (fst (check_temperatures e m)) in
  exists cs,
    critical_components (temps m') = Ok cs
    /\ cs <> []
    /\ (2 <= critical_count m')%Z
    /\ (inject_Z NOTIFICATION_COOLDOWN <= now e - last_notification_time m)%Q.
Proof.
  intros Hin.
  destruct (check_temperatures_fires e m title msg c Hin)
    as (r & rd & tr0 & cs & _ & Hcs & Hne & Hcount & Hcool & Heq).
  rewrite Heq. simpl.
  exists cs. repeat split.
  - exact Hcs.
  - intros ->. discriminate Hne.
  - now apply Z.leb_le.
  - now apply Qle_bool_iff.
Qed.

Lemma alert_requires_debounce_and_cooldown_witness :
  let m := fst (tick (answers scenario_A 1000) started) in
  let e := answers scenario_A 1003 in
  exists cs,
    critical_components (temps (snd (fst (check_temperatures e m)))) = Ok cs
    /\ cs <> []
    /\ (2 <= critical_count (snd (fst (check_temperatures e m))))%Z
    /\ (inject_Z NOTIFICATION_COOLDOWN <= now e - last_notification_time m)%Q.
Proof.
  intros m e.
  apply (alert_requires_debounce_and_cooldown e m
           ALERT_TITLE (alert_message ["CPU: 92" ++ DEGREES]%string) true).
  vm_compute. right. left. reflexivity.
Defined.

(** C3. On a tick that sends the alert, the tick sets
    [last_notification_time] to the current time and leaves [critical_count]
    at the value this tick's increment gave it; the sending changes nothing
    else: the state after the tick is the state before it with the poll
    stored, [error_shown] cleared, the counter one higher, and then the time
    of the alert. *)
Theorem firing_sets_only_the_alert_time (e : env) (m : monitor) title msg c :
  In (Notified title msg c) (snd (check_temperatures e m)) ->
  let m' := snd (fst (check_temperatures e m)) in
  let counted :=
    set_critical_count (critical_count m + 1)
      (set_error_shown false (set_poll (temps m') (reader_after e m) m)) in
  last_notification_time m' = now e
  /\ critical_count m' = critical_count counted
  /\ critical_count m' = (critical_count m + 1)%Z
  /\ m' = set_last_notification_time (now e) counted.
Proof.
  intros Hin.
  destruct (check_temperatures_fires e m title msg c Hin)
    as (r & rd & tr0 & cs & Hpoll & _ & _ & _ & _ & Heq).
  unfold reader_after. rewrite Heq, Hpoll. simpl.
  repeat split.
Qed.

Lemma firing_sets_only_the_alert_time_witness :
  let m := fst (tick (answers scenario_A 1000) started) in
  let e := answers scenario_A 1003 in
  last_notification_time (snd (fst (check_temperatures e m))) = now e
  /\ critical_count (snd (fst (check_temperatures e m))) = 2%Z.
Proof.
  intros m e.
  destruct (firing_sets_only_the_alert_time e m
              ALERT_TITLE (alert_message ["CPU: 92" ++ DEGREES]%string) true)
    as (Htime & _ & Hcount & _).
  - vm_compute. right. left. reflexivity.
  - split; [exact Htime | exact Hcount].
Defined.

(** ** The counter of consecutive critical ticks *)

Lemma update_icon_frame (m : monitor) :
  let m' := snd (update_icon m) in
  running m' = running m
  /\ temp_reader m' = temp_reader m
  /\ temps m' = temps m
  /\ last_notification_time m' = last_notification_time m
  /\ error_shown m' = error_shown m
  /\ critical_count m' = critical_count m.
Proof.
  unfold update_icon.
  destruct (icon m) as [ic | ]; [ | simpl; tauto].
  destruct (new_image (temps m)) as [g | x]; [ | simpl; tauto].
  destruct (tooltip_lines (temps m)) as [lines | x]; simpl; tauto.
Qed.

(** A tick whose poll yields the empty dict: the first such tick of a run
    prints the recorded cause, if there is one, and returns early; a later
    one goes on with no reading and resets the counter. *)
Lemma check_temperatures_failed (e : env) (m : monitor) :
  poll_failed e m = true ->
  check_temperatures e m =
  let rd := reader_after e m in
  let tr0 := snd (get_temperatures e (temp_reader m)) in
  if error_shown m
  then (Ok tt, set_critical_count 0 (set_poll None rd m), tr0)
  else (Ok tt, set_error_shown true (set_poll None rd m),
        (tr0 ++ print_last_error rd)%list).
Proof.
  unfold poll_failed, reader_after, check_temperatures.
  destruct (get_temperatures e (temp_reader m)) as [[r rd] tr0].
  destruct r as [[r | ] | x]; try discriminate.
  intros _. simpl.
  destruct (error_shown m) eqn:Hshown; simpl.
  - unfold alert_step. simpl. now rewrite app_nil_r.
  - reflexivity.
Qed.

Lemma alert_step_frame (t : Q) (cs : list string) (m : monitor) :
  let m' := fst (alert_step t cs m) in
  running m' = running m
  /\ temp_reader m' = temp_reader m
  /\ temps m' = temps m
  /\ icon m' = icon m
  /\ error_shown m' = error_shown m.
Proof.
  unfold alert_step.
  destruct (nonempty cs);
    match goal with |- context [if ?b then _ else _] => destruct b end;
    simpl; tauto.
Qed.

(** A tick that is not the early return and does not raise: the counter goes
    up by one when some component is critical and back to 0 otherwise. *)
Lemma counter_follows_critical_components (e : env) (m : monitor) cs :
  (poll_failed e m && negb (error_shown m))%bool = false ->
  fst (fst (check_temperatures e m)) = Ok tt ->
  critical_components (temps (snd (fst (check_temperatures e m)))) = Ok cs ->
  critical_count (snd (fst (check_temperatures e m))) =
  if nonempty cs then (critical_count m + 1)%Z else 0%Z.
Proof.
  unfold poll_failed, check_temperatures.
  destruct (get_temperatures e (temp_reader m)) as [[r rd] tr0].
  destruct r as [[r | ] | x]; simpl.
  - intros _.
    destruct (critical_components (Some r)) as [cs' | x] eqn:Hcs; simpl;
      [ | discriminate].
    pose proof (alert_step_count (now e) cs'
                  (set_error_shown false (set_poll (Some r) rd m))) as Hc.
    pose proof (alert_step_frame (now e) cs'
                  (set_error_shown false (set_poll (Some r) rd m))) as Hf.
    destruct (alert_step (now e) cs' (set_error_shown false (set_poll (Some r) rd m)))
      as [m3 out].
    simpl in *. destruct Hf as (_ & _ & Ht & _).
    intros _. rewrite Ht, Hcs. intros [= <-]. exact Hc.
  - destruct (error_shown m); simpl; [ | discriminate].
    intros _ _ [= <-]. reflexivity.
  - discriminate.
Qed.

Lemma first_failure_keeps_the_counter (e : env) (m : monitor) :
  poll_failed e m = true ->
  error_shown m = false ->
  critical_count (snd (fst (check_temperatures e m))) = critical_count m.
Proof.
  intros Hfail Hshown.
  rewrite (check_temperatures_failed e m Hfail). simpl.
  now rewrite Hshown.
Qed.

Lemma later_failure_resets_the_counter (e : env) (m : monitor) :
  poll_failed e m = true ->
  error_shown m = true ->
  critical_count (snd (fst (check_temperatures e m))) = 0%Z.
Proof.
  intros Hfail Hshown.
  rewrite (check_temperatures_failed e m Hfail). simpl.
  now rewrite Hshown.
Qed.

(** C2. The counter is to go back to 0 on every tick without a critical
    component, failed polls included.  The run below has a critical tick, a
    poll that times out, and a critical tick: the first failed poll returns
    early and leaves the counter at 1, so the third tick reaches 2 and sends
    the alert; a second failed poll in a row would have reset the counter. *)
Theorem first_failed_poll_skips_the_reset :
  let m1 := fst (tick (answers scenario_A 1000) started) in
  let m2 := fst (tick (times_out 1003) m1) in
  let m3 := fst (tick (answers scenario_A 1006) m2) in
  critical_count m1 = 1%Z
  /\ poll_failed (times_out 1003) m1 = true
  /\ critical_components (temps m2) = Ok []
  /\ critical_count m2 = 1%Z
  /\ critical_count m3 = 2%Z
  /\ alerts (snd (tick (answers scenario_A 1006) m2)) =
     [alert_message ["CPU: 92" ++ DEGREES]%string]
  /\ critical_count (fst (tick (times_out 1006) m2)) = 0%Z.
Proof.
  vm_compute. repeat split.
Qed.

(** ** The glyph and the tooltip *)

Lemma new_image_spec (t : temps_dict) :
  number_or_none (temps_cpu t) = true ->
  number_or_none (temps_gpu t) = true ->
  let d := spec_display_value (as_float (temps_cpu t)) (as_float (temps_gpu t)) in
  as_float (display_temp t) = d
  /\ new_image t =
     Ok {| bg_color := tier_color (spec_glyph_tier d);
           temp_text := match d with
                        | Some v => str_of_int (int_of v)
                        | None => "?"
                        end |}.
Proof.
  unfold new_image, display_temp.
  destruct (temps_cpu t) as [ | [ | ] | q | s | items | fields ]; try discriminate;
    intros _; simpl.
  - destruct (temps_gpu t) as [ | [ | ] | q | s | items | fields ]; try discriminate;
      intros _; simpl; try (split; reflexivity).
    unfold not_none_and_ge, ge, create_temp_icon. simpl.
    change (inject_Z 80) with 80%Q. change (inject_Z TEMP_CRITICAL_CPU) with 90%Q.
    destruct (Qle_bool 90 q) eqn:H90; destruct (Qle_bool 80 q) eqn:H80;
      split; reflexivity.
  - intros _. split; reflexivity.
  - intros _. split; reflexivity.
  - intros _.
    unfold not_none_and_ge, ge, create_temp_icon. simpl.
    change (inject_Z 80) with 80%Q. change (inject_Z TEMP_CRITICAL_CPU) with 90%Q.
    destruct (Qle_bool 90 q) eqn:H90; destruct (Qle_bool 80 q) eqn:H80;
      split; reflexivity.
Qed.

(** C4. For every stored reading (CPU and GPU values numbers or absent), the
    value the glyph shows is the CPU temperature if present, else the GPU
    temperature if present, else absent; and the tier of the glyph is NoData
    if that value is absent, Critical if it is at least 90, Warning if it is
    at least 80, else Normal, also when the value shown is the GPU's. *)
Theorem glyph_follows_display_value (m : monitor) (ic : tray_icon) :
  icon m = Some ic ->
  number_or_none (temps_cpu (temps m)) = true ->
  number_or_none (temps_gpu (temps m)) = true ->
  let d := spec_display_value (as_float (temps_cpu (temps m)))
                              (as_float (temps_gpu (temps m))) in
  as_float (display_temp (temps m)) = d
  /\ exists ic',
       icon (snd (update_icon m)) = Some ic'
       /\ bg_color (image ic') = tier_color (spec_glyph_tier d)
       /\ temp_text (image ic') = match d with
                                  | Some v => str_of_int (int_of v)
                                  | None => "?"
                                  end.
Proof.
  intros Hicon Hcpu Hgpu.
  destruct (new_image_spec (temps m) Hcpu Hgpu) as [Hd Himg].
  split; [exact Hd | ].
  unfold update_icon. rewrite Hicon, Himg.
  destruct (tooltip_lines (temps m)) as [lines | x]; simpl;
    eexists; repeat split.
Qed.

Lemma glyph_follows_display_value_witness :
  let m := fst (tick (answers (document JNull (JNum 87) []) 1000) started) in
  exists ic',
    icon (snd (update_icon m)) = Some ic'
    /\ bg_color (image ic') = AMBER
    /\ temp_text (image ic') = "87".
Proof.
  intros m.
  destruct (glyph_follows_display_value m
              {| image := {| bg_color := AMBER; temp_text := "87" |};
                 title := "GPU: 87" ++ DEGREES |}) as [_ H];
    [reflexivity | reflexivity | reflexivity | exact H].
Defined.

Lemma quot_truncates (n : Z) (d : positive) :
  (Z.abs (n ÷ Zpos d) * Zpos d <= Z.abs n)%Z
  /\ (Z.abs n < (Z.abs (n ÷ Zpos d) + 1) * Zpos d)%Z
  /\ ((0 <= n)%Z -> (0 <= n ÷ Zpos d)%Z)
  /\ ((n <= 0)%Z -> (n ÷ Zpos d <= 0)%Z).
Proof.
  assert (Hd : (0 < Zpos d)%Z) by lia.
  rewrite <- (Z.quot_abs n (Zpos d)) by lia.
  replace (Z.abs (Zpos d)) with (Zpos d) by lia.
  rewrite (Z.quot_div_nonneg (Z.abs n) (Zpos d)) by lia.
  pose proof (Z.mul_div_le (Z.abs n) (Zpos d) Hd).
  pose proof (Z.mul_succ_div_gt (Z.abs n) (Zpos d) Hd).
  repeat split; try lia.
  - intros Hn. apply Z.quot_pos; lia.
  - intros Hn. rewrite <- (Z.opp_involutive n), Z.quot_opp_l by lia.
    assert (0 <= (- n) ÷ Zpos d)%Z by (apply Z.quot_pos; lia). lia.
Qed.

(** C9, as the code has it.  The label of the glyph is ["?"] when the value
    is absent, and otherwise the decimal writing of the value cut to an
    integer toward zero (79.6 is drawn as 79): the integer [z] of the same
    sign with |z| <= |value| < |z| + 1. *)
Theorem glyph_label_truncates (temp : option Q) (warning critical no_data : bool) :
  match temp with
  | None => temp_text (create_temp_icon None warning critical no_data) = "?"
  | Some v =>
      exists z : Z,
        temp_text (create_temp_icon (Some v) warning critical no_data) = str_of_int z
        /\ (inject_Z (Z.abs z) <= Qabs v)%Q
        /\ (Qabs v < inject_Z (Z.abs z) + 1)%Q
        /\ ((0 <= v)%Q -> (0 <= z)%Z)
        /\ ((v <= 0)%Q -> (z <= 0)%Z)
  end.
Proof.
  destruct temp as [[n d] | ]; [ | reflexivity].
  exists (int_of (n # d)). split; [reflexivity | ].
  unfold int_of. simpl Qnum. simpl Qden.
  destruct (quot_truncates n d) as (Hlow & Hhigh & Hpos & Hneg).
  repeat split.
  - unfold Qle. simpl. lia.
  - unfold Qlt. simpl. lia.
  - unfold Qle. simpl. intros Hv. apply Hpos. lia.
  - unfold Qle. simpl. intros Hv. apply Hneg. lia.
Qed.

(** C9 as stated fails: the double nearest to 79.6 is drawn as 79, and 79
    is not an integer nearest to it. *)
Lemma glyph_label_is_not_rounded :
  temp_text (create_temp_icon (Some v79_6) false false false) = "79"
  /\ nearest_integer 80 v79_6
  /\ ~ (exists z : Z,
          nearest_integer z v79_6
          /\ temp_text (create_temp_icon (Some v79_6) false false false) = str_of_int z).
Proof.
  split; [vm_compute; reflexivity | ]. split.
  - unfold nearest_integer. apply Qabs_Qle_condition.
    split; vm_compute; intros H; discriminate H.
  - intros (z & Hnear & Hlabel).
    unfold nearest_integer in Hnear. apply Qabs_Qle_condition in Hnear.
    assert (z = 80%Z) as ->.
    { revert Hnear. unfold v79_6, Qle, Qminus, Qplus, Qopp, inject_Z.
      cbn [Qnum Qden]. lia. }
    vm_compute in Hlabel. discriminate Hlabel.
Qed.

(** C5. Every line of a storage device is to carry the label of the device
    cut to 15 characters.  [update_icon] computes that label, ["Samsung SSD
    980"] here, and then writes the line without it. *)
Theorem tooltip_drops_the_storage_label :
  let m := set_poll long_label (reader_init true) started in
  map short_name (temps_ssds long_label) = [Ok (JStr "Samsung SSD 980")]
  /\ tooltip_lines long_label = Ok ["SSD: 40" ++ DEGREES]%string
  /\ option_map title (icon (snd (update_icon m))) = Some ("SSD: 40" ++ DEGREES)%string
  /\ contains "Samsung SSD 980" ("SSD: 40" ++ DEGREES) = false.
Proof.
  vm_compute. repeat split.
Qed.

(** C10. There is a reading for which the critical alert is sent on a tick
    whose glyph is Normal (green): CPU 50 with one storage device at 75, on
    two ticks in a row with the cooldown over.  The second tick sends an
    alert that names the storage device while the glyph shows 50 on green. *)
Theorem storage_alert_under_a_green_glyph :
  exists data : json,
    let '(m2, trs) :=
      monitoring_loop [answers data 1000; answers data 1003] started in
    temps m2 =
      Some {| cpu := JNum 50; cpu_name := JStr "CPU";
              gpu := JNull; gpu_name := JStr "GPU";
              ssds := [{| name := JStr "NVMe0"; temp := JNum 75 |}] |}
    /\ map alerts trs = [[]; [alert_message ["SSD: 75" ++ DEGREES]%string]]
    /\ contains ("SSD: 75" ++ DEGREES) (alert_message ["SSD: 75" ++ DEGREES]%string) = true
    /\ option_map image (icon m2) =
       Some {| bg_color := tier_color Normal; temp_text := "50" |}
    /\ spec_glyph_tier (as_float (display_temp (temps m2))) = Normal.
Proof.
  exists hot_storage. vm_compute. repeat split.
Qed.

(** ** The message of a failed poll *)

Lemma poll_errors_app (tr1 tr2 : list event) :
  poll_errors (tr1 ++ tr2) = (poll_errors tr1 ++ poll_errors tr2)%list.
Proof. unfold poll_errors. apply flat_map_app. Qed.

Lemma tick_failed (e : env) (m : monitor) :
  poll_failed e m = true ->
  poll_errors (snd (tick e m)) =
    (if error_shown m then [] else printed_cause (reader_after e m))
  /\ error_shown (fst (tick e m)) = true
  /\ running (fst (tick e m)) = running m.
Proof.
  intros Hfail. unfold tick.
  rewrite (check_temperatures_failed e m Hfail).
  destruct (poll_trace_silent e (temp_reader m)) as [Hsilent _].
  cbv zeta.
  destruct (error_shown m) eqn:Hshown.
  - pose proof (update_icon_frame
                  (set_critical_count 0 (set_poll None (reader_after e m) m))) as Hf.
    destruct (update_icon _) as [r2 m2]. simpl in Hf.
    destruct Hf as (Hrun & _ & _ & _ & Herr & _).
    destruct r2 as [u | x]; simpl; rewrite ?poll_errors_app, Hsilent, Herr, Hrun;
      repeat split; assumption.
  - pose proof (update_icon_frame
                  (set_error_shown true (set_poll None (reader_after e m) m))) as Hf.
    destruct (update_icon _) as [r2 m2]. simpl in Hf.
    destruct Hf as (Hrun & _ & _ & _ & Herr & _).
    assert (poll_errors (print_last_error (reader_after e m))
            = printed_cause (reader_after e m)) as Hcause.
    { unfold printed_cause, print_last_error.
      destruct (last_error (reader_after e m)) as [s | ]; [ | reflexivity].
      destruct (nonempty_string s); reflexivity. }
    destruct r2 as [u | x]; simpl;
      rewrite ?poll_errors_app, Hsilent, Hcause, Herr, Hrun; simpl;
      rewrite ?app_nil_r; repeat split.
Qed.

Lemma alert_step_prints_no_cause (t : Q) (cs : list string) (m : monitor) :
  poll_errors (snd (alert_step t cs m)) = [].
Proof.
  unfold alert_step.
  destruct (nonempty cs);
    match goal with |- context [if ?b then _ else _] => destruct b end;
    reflexivity.
Qed.

Lemma tick_succeeded (e : env) (m : monitor) :
  poll_succeeded e m = true ->
  poll_errors (snd (tick e m)) = []
  /\ error_shown (fst (tick e m)) = false
  /\ running (fst (tick e m)) = running m.
Proof.
  unfold poll_succeeded, tick, check_temperatures.
  destruct (poll_trace_silent e (temp_reader m)) as [Hsilent _].
  destruct (get_temperatures e (temp_reader m)) as [[r rd] tr0].
  destruct r as [[r | ] | x]; try discriminate.
  intros _. simpl in *.
  destruct (critical_components (Some r)) as [cs | x].
  - pose proof (alert_step_frame (now e) cs
                  (set_error_shown false (set_poll (Some r) rd m))) as Hf.
    pose proof (alert_step_prints_no_cause (now e) cs
                  (set_error_shown false (set_poll (Some r) rd m))) as Hp.
    destruct (alert_step _ _ _) as [m3 out]. simpl in Hf, Hp.
    destruct Hf as (Hrun3 & _ & _ & _ & Herr3).
    pose proof (update_icon_frame m3) as Hu.
    destruct (update_icon m3) as [r2 m2]. simpl in Hu.
    destruct Hu as (Hrun & _ & _ & _ & Herr & _).
    destruct r2 as [u | x]; simpl;
      rewrite ?poll_errors_app, Hsilent, Hp, Herr, Herr3, Hrun, Hrun3;
      repeat split.
  - simpl. rewrite poll_errors_app, Hsilent. repeat split.
Qed.

Lemma monitoring_loop_cons (e : env) (envs : list env) (m : monitor) :
  running m = true ->
  monitoring_loop (e :: envs) m =
  (fst (monitoring_loop envs (fst (tick e m))),
   snd (tick e m) :: snd (monitoring_loop envs (fst (tick e m)))).
Proof.
  intros Hrun. simpl. rewrite Hrun.
  destruct (tick e m) as [m1 tr]. simpl.
  destruct (monitoring_loop envs m1) as [m2 trs]. reflexivity.
Qed.

(** Once the flag is set, a run of failed polls prints no cause. *)
Lemma failing_run_is_silent (envs : list env) :
  forall m,
    running m = true ->
    error_shown m = true ->
    all_failing envs m = true ->
    map poll_errors (snd (monitoring_loop envs m)) = repeat [] (List.length envs)
    /\ error_shown (fst (monitoring_loop envs m)) = true.
Proof.
  induction envs as [ | e rest IH]; intros m Hrun Hshown Hall.
  - simpl. split; [reflexivity | exact Hshown].
  - simpl in Hall. apply andb_prop in Hall. destruct Hall as [Hfail Hrest].
    destruct (tick_failed e m Hfail) as (Hprint & Hshown' & Hrun').
    rewrite Hshown in Hprint. rewrite Hrun in Hrun'.
    destruct (IH (fst (tick e m)) Hrun' Hshown' Hrest) as [IHp IHs].
    rewrite (monitoring_loop_cons e rest m Hrun). simpl.
    rewrite Hprint, IHp. split; [reflexivity | exact IHs].
Qed.

(** C6, as the code has it.  Over a run of consecutive failed polls that
    starts with [error_shown] clear, the message of the failed poll is
    printed at most once, on the first tick of the run and on no later one,
    and it is printed there exactly when the reader holds a [last_error]
    that is not empty after that poll; every tick of the run leaves
    [error_shown] set.  A poll that returns a reading prints no such message
    and clears [error_shown]. *)
Theorem poll_failure_printed_at_most_once_per_run :
  (forall (e : env) (envs : list env) (m : monitor),
      running m = true ->
      error_shown m = false ->
      all_failing (e :: envs) m = true ->
      map poll_errors (snd (monitoring_loop (e :: envs) m)) =
        printed_cause (reader_after e m) :: repeat [] (List.length envs)
      /\ error_shown (fst (monitoring_loop (e :: envs) m)) = true)
  /\ (forall (e : env) (m : monitor),
        poll_succeeded e m = true ->
        poll_errors (snd (tick e m)) = []
        /\ error_shown (fst (tick e m)) = false).
Proof.
  split.
  - intros e envs m Hrun Hshown Hall.
    simpl in Hall. apply andb_prop in Hall. destruct Hall as [Hfail Hrest].
    destruct (tick_failed e m Hfail) as (Hprint & Hshown' & Hrun').
    rewrite Hshown in Hprint. rewrite Hrun in Hrun'.
    destruct (failing_run_is_silent envs (fst (tick e m)) Hrun' Hshown' Hrest)
      as [Hp Hs].
    rewrite (monitoring_loop_cons e envs m Hrun). simpl.
    rewrite Hprint, Hp. split; [reflexivity | exact Hs].
  - intros e m Hok.
    destruct (tick_succeeded e m Hok) as (Hp & Hs & _). split; assumption.
Qed.

(** Five polls in a row that time out: the cause is printed once, on the
    first. *)
Lemma poll_failure_printed_at_most_once_per_run_witness :
  map poll_errors
    (snd (monitoring_loop
            [times_out 1000; times_out 1003; times_out 1006;
             times_out 1009; times_out 1012] started)) =
  [["Timeout reading temperature"]; []; []; []; []]
  /\ error_shown
       (fst (monitoring_loop
               [times_out 1000; times_out 1003; times_out 1006;
                times_out 1009; times_out 1012] started)) = true.
Proof.
  apply (proj1 poll_failure_printed_at_most_once_per_run
           (times_out 1000)
           [times_out 1003; times_out 1006; times_out 1009; times_out 1012]
           started); reflexivity.
Defined.

(** C6 as stated fails: after a reading, five polls in a row answer with a
    document that reports failure; each of the five yields the empty dict,
    and none of them prints a message. *)
Lemma non_success_run_prints_nothing :
  let envs := [answers scenario_A 1000;
               answers no_success 1003; answers no_success 1006;
               answers no_success 1009; answers no_success 1012;
               answers no_success 1015] in
  poll_succeeded (answers scenario_A 1000) started = true
  /\ all_failing (tl envs) (fst (tick (answers scenario_A 1000) started)) = true
  /\ map poll_errors (snd (monitoring_loop envs started)) = [[]; []; []; []; []; []].
Proof.
  vm_compute. repeat split.
Qed.

(** ** The reader and the documents of the helper *)

Lemma get_object (o : json) (k : string) (default : json) :
  is_object o = true -> get o k default = Ok (field o k default).
Proof.
  destruct o; try discriminate. intros _. simpl.
  destruct (lookup k fields); reflexivity.
Qed.

Lemma collect_ssds_objects (items : list json) :
  forallb is_object items = true ->
  collect_ssds items = Ok (map entry_of (filter has_temp items)).
Proof.
  induction items as [ | o rest IH]; [reflexivity | ].
  simpl. intros H. apply andb_prop in H. destruct H as [Ho Hrest].
  rewrite (get_object o "temp" JNull Ho). simpl.
  unfold has_temp.
  destruct (is_none (field o "temp" JNull)); simpl.
  - apply IH, Hrest.
  - rewrite (get_object o "name" (JStr "SSD") Ho). simpl.
    rewrite (IH Hrest). reflexivity.
Qed.

(** Whatever the items are, an entry that is collected has a temperature. *)
Lemma collect_ssds_temps (items : list json) :
  forall l, collect_ssds items = Ok l ->
            Forall (fun s => is_none (temp s) = false) l.
Proof.
  induction items as [ | o rest IH]; simpl; intros l H.
  - injection H as <-. constructor.
  - destruct (get o "temp" JNull) as [t | x] eqn:Ht; simpl in H; [ | discriminate].
    destruct (is_none t) eqn:Hnone.
    + apply IH, H.
    + destruct (get o "name" (JStr "SSD")) as [n | x]; simpl in H; [ | discriminate].
      destruct (collect_ssds rest) as [tail | x]; simpl in H; [ | discriminate].
      injection H as <-. constructor; [exact Hnone | now apply IH].
Qed.

Lemma extract_temps (data : json) (r : reading) :
  extract data = Ok (Some r) ->
  Forall (fun s => is_none (temp s) = false) (ssds r).
Proof.
  unfold extract.
  destruct (truthy data); simpl; [ | discriminate].
  destruct (get data "success" JNull) as [s | x]; simpl; [ | discriminate].
  destruct (truthy s); simpl; [ | discriminate].
  destruct (get data "cpu" (JObj [])) as [c | x]; simpl; [ | discriminate].
  destruct (get c "temp" JNull) as [ct | x]; simpl; [ | discriminate].
  destruct (get c "name" (JStr "CPU")) as [cn | x]; simpl; [ | discriminate].
  destruct (get data "gpu" (JObj [])) as [g | x]; simpl; [ | discriminate].
  destruct (get g "temp" JNull) as [gt | x]; simpl; [ | discriminate].
  destruct (get g "name" (JStr "GPU")) as [gn | x]; simpl; [ | discriminate].
  destruct (get data "ssds" (JArr [])) as [src | x]; simpl; [ | discriminate].
  destruct (iter src) as [items | x]; simpl; [ | discriminate].
  destruct (collect_ssds items) as [l | x] eqn:Hl; simpl; [ | discriminate].
  intros [= <-]. simpl. now apply (collect_ssds_temps items).
Qed.

Lemma extract_no_success (data : json) :
  reports_no_success data = true -> extract data = Ok None.
Proof.
  unfold reports_no_success, extract.
  destruct (truthy data); simpl; [ | reflexivity].
  intros H. apply andb_prop in H. destruct H as [Hobj Hs].
  rewrite (get_object data "success" JNull Hobj). simpl.
  now rewrite Hs.
Qed.

(** A document of the expected shape that reports success: the reading. *)
Lemma extract_well_shaped (fields : list (string * json)) :
  well_shaped (JObj fields) = true ->
  reports_no_success (JObj fields) = false ->
  extract (JObj fields) =
  Ok (Some {| cpu := field (field (JObj fields) "cpu" (JObj [])) "temp" JNull;
              cpu_name := field (field (JObj fields) "cpu" (JObj [])) "name" (JStr "CPU");
              gpu := field (field (JObj fields) "gpu" (JObj [])) "temp" JNull;
              gpu_name := field (field (JObj fields) "gpu" (JObj [])) "name" (JStr "GPU");
              ssds := match field (JObj fields) "ssds" (JArr []) with
                      | JArr items => map entry_of (filter has_temp items)
                      | _ => []
                      end |}).
Proof.
  unfold well_shaped, reports_no_success, extract, field_ok.
  intros Hshape Hsucc.
  apply andb_prop in Hshape. destruct Hshape as [Hshape Hssds].
  apply andb_prop in Hshape. destruct Hshape as [Hcpu Hgpu].
  apply orb_false_elim in Hsucc. destruct Hsucc as [Htruthy Hsucc].
  apply negb_false_iff in Htruthy. rewrite Htruthy.
  cbn [is_object andb] in Hsucc. apply negb_false_iff in Hsucc.
  assert (is_object (field (JObj fields) "cpu" (JObj [])) = true) as Hc.
  { cbn [field]. destruct (lookup "cpu" fields); [exact Hcpu | reflexivity]. }
  assert (is_object (field (JObj fields) "gpu" (JObj [])) = true) as Hg.
  { cbn [field]. destruct (lookup "gpu" fields); [exact Hgpu | reflexivity]. }
  rewrite (get_object (JObj fields) "success" JNull eq_refl).
  cbn [bind negb]. rewrite Hsucc. cbn [negb].
  rewrite (get_object (JObj fields) "cpu" (JObj []) eq_refl). cbn [bind].
  rewrite (get_object _ "temp" JNull Hc), (get_object _ "name" (JStr "CPU") Hc).
  cbn [bind].
  rewrite (get_object (JObj fields) "gpu" (JObj []) eq_refl). cbn [bind].
  rewrite (get_object _ "temp" JNull Hg), (get_object _ "name" (JStr "GPU") Hg).
  cbn [bind].
  rewrite (get_object (JObj fields) "ssds" (JArr []) eq_refl). cbn [bind].
  assert (exists items,
             field (JObj fields) "ssds" (JArr []) = JArr items
             /\ forallb is_object items = true) as (items & Hsrc & Hitems).
  { cbn [field]. destruct (lookup "ssds" fields) as [src | ].
    - destruct src as [ | b | q | s | items | fs]; try discriminate.
      exists items. split; [reflexivity | exact Hssds].
    - exists []. split; reflexivity. }
  rewrite Hsrc. cbn [iter bind].
  rewrite (collect_ssds_objects items Hitems). reflexivity.
Qed.

(** What a poll hands to [get_temperatures]: the document when the helper
    was started and printed one, [None] otherwise. *)
Lemma run_powershell_data (e : env) (rd : reader) :
  fst (fst (_run_powershell e rd)) =
  if helper_started e rd
  then match helper e with
       | Exited (Document data) _ => data
       | _ => JNull
       end
  else JNull.
Proof.
  unfold _run_powershell, helper_started, run_helper.
  destruct (dll_available rd); simpl.
  - destruct (helper e) as [ | msg | [ | err | data] stderr]; reflexivity.
  - destruct (dll_exists e); simpl; [ | reflexivity].
    destruct (helper e) as [ | msg | [ | err | data] stderr]; reflexivity.
Qed.

(** The cause a poll records. *)
Lemma run_powershell_cause (e : env) (rd : reader) :
  last_error (snd (fst (_run_powershell e rd))) =
  if helper_started e rd
  then match helper e with
       | Timeout => Some "Timeout reading temperature"
       | Failed msg => Some msg
       | Exited (NotJson err) _ => Some ("JSON Parse Error: " ++ err)%string
       | Exited NoOutput stderr =>
           if nonempty_string stderr then Some stderr else last_error rd
       | Exited (Document _) _ => last_error rd
       end
  else last_error rd.
Proof.
  unfold _run_powershell, helper_started, run_helper.
  destruct (dll_available rd); simpl.
  - destruct (helper e) as [ | msg | [ | err | data] stderr]; try reflexivity.
    simpl. destruct (nonempty_string stderr); reflexivity.
  - destruct (dll_exists e); simpl; [ | reflexivity].
    destruct (helper e) as [ | msg | [ | err | data] stderr]; try reflexivity.
    simpl. destruct (nonempty_string stderr); reflexivity.
Qed.

Lemma get_temperatures_result (e : env) (rd : reader) :
  fst (fst (get_temperatures e rd)) = extract (fst (fst (_run_powershell e rd)))
  /\ snd (fst (get_temperatures e rd)) = snd (fst (_run_powershell e rd)).
Proof.
  unfold get_temperatures.
  destruct (_run_powershell e rd) as [[data rd'] tr]. split; reflexivity.
Qed.

(** C7, as the code has it.  [get_temperatures] does not raise when the
    helper ends without a document or with a document of the expected shape.
    It returns the empty dict when the helper times out, cannot be run,
    prints nothing, prints text that is not JSON, or prints a document that
    reports no success, and when the DLL is missing.  A cause is recorded in
    [last_error] on a timeout, on another exception of the run, on text that
    is not JSON, and on empty output with text on stderr; a document leaves
    [last_error] as it was.  A reading that is returned lists only storage
    entries that have a temperature, and for a document of the expected
    shape these are, in order, the entries of the document with a
    temperature. *)
Theorem get_temperatures_absorbs_failures :
  (forall e rd,
      outcome_well_shaped (helper e) = true ->
      raises (fst (fst (get_temperatures e rd))) = false)
  /\ (forall e rd,
        helper_fails (helper e) = true \/ helper_started e rd = false ->
        fst (fst (get_temperatures e rd)) = Ok None)
  /\ (forall e rd,
        helper_started e rd = true ->
        let rd' := snd (fst (get_temperatures e rd)) in
        match helper e with
        | Timeout => last_error rd' = Some "Timeout reading temperature"
        | Failed msg => last_error rd' = Some msg
        | Exited (NotJson err) _ =>
            last_error rd' = Some ("JSON Parse Error: " ++ err)%string
        | Exited NoOutput stderr =>
            nonempty_string stderr = true -> last_error rd' = Some stderr
        | Exited (Document _) _ => last_error rd' = last_error rd
        end)
  /\ (forall e rd r,
        fst (fst (get_temperatures e rd)) = Ok (Some r) ->
        Forall (fun s => is_none (temp s) = false) (ssds r))
  /\ (forall e rd fields stderr,
        helper_started e rd = true ->
        helper e = Exited (Document (JObj fields)) stderr ->
        well_shaped (JObj fields) = true ->
        reports_no_success (JObj fields) = false ->
        exists r,
          fst (fst (get_temperatures e rd)) = Ok (Some r)
          /\ cpu r = field (field (JObj fields) "cpu" (JObj [])) "temp" JNull
          /\ gpu r = field (field (JObj fields) "gpu" (JObj [])) "temp" JNull
          /\ ssds r = match field (JObj fields) "ssds" (JArr []) with
                      | JArr items => map entry_of (filter has_temp items)
                      | _ => []
                      end).
Proof.
  repeat apply conj.
  - intros e rd Hshape.
    destruct (get_temperatures_result e rd) as [-> _].
    rewrite run_powershell_data.
    destruct (helper_started e rd); [ | reflexivity].
    destruct (helper e) as [ | msg | [ | err | data] stderr]; try reflexivity.
    simpl in Hshape.
    destruct (reports_no_success data) eqn:Hs.
    + now rewrite (extract_no_success data Hs).
    + destruct data; try discriminate Hshape.
      now rewrite (extract_well_shaped fields Hshape Hs).
  - intros e rd H.
    destruct (get_temperatures_result e rd) as [-> _].
    rewrite run_powershell_data.
    destruct (helper_started e rd); [ | reflexivity].
    destruct H as [H | H]; [ | discriminate H].
    destruct (helper e) as [ | msg | [ | err | data] stderr]; try reflexivity.
    simpl in H. now apply extract_no_success.
  - intros e rd Hstarted. cbv zeta.
    destruct (get_temperatures_result e rd) as [_ ->].
    rewrite run_powershell_cause, Hstarted.
    destruct (helper e) as [ | msg | [ | err | data] stderr]; try reflexivity.
    now intros ->.
  - intros e rd r.
    destruct (get_temperatures_result e rd) as [-> _].
    apply extract_temps.
  - intros e rd fields stderr Hstarted Hhelper Hshape Hs.
    destruct (get_temperatures_result e rd) as [-> _].
    rewrite run_powershell_data, Hstarted, Hhelper.
    rewrite (extract_well_shaped fields Hshape Hs).
    eexists. split; [reflexivity | ]. repeat split.
Qed.

(** A helper that times out, and a document with a CPU at 45, no GPU and
    two storage entries of which one has no temperature. *)
Lemma get_temperatures_absorbs_failures_witness :
  get_temperatures (times_out 1000) (reader_init true) =
    (Ok None,
     {| last_error := Some "Timeout reading temperature"; dll_available := true |},
     [HelperRun])
  /\ exists r,
       fst (fst (get_temperatures
                   (answers (document (JNum 45) JNull
                               [sensor "NVMe0" (JNum 38); sensor "NVMe1" JNull]) 1000)
                   (reader_init true))) = Ok (Some r)
       /\ cpu r = JNum 45
       /\ gpu r = JNull
       /\ ssds r = [{| name := JStr "NVMe0"; temp := JNum 38 |}].
Proof.
  split.
  - reflexivity.
  - destruct get_temperatures_absorbs_failures as (_ & _ & _ & _ & H).
    exact (H (answers (document (JNum 45) JNull
                         [sensor "NVMe0" (JNum 38); sensor "NVMe1" JNull]) 1000)
             (reader_init true)
             [("success", JBool true); ("cpu", sensor "CPU" (JNum 45));
              ("gpu", sensor "GPU" JNull);
              ("ssds", JArr [sensor "NVMe0" (JNum 38); sensor "NVMe1" JNull])]
             EmptyString eq_refl eq_refl eq_refl eq_refl).
Defined.

(** C7 as stated fails: a document with [cpu] null makes [get_temperatures]
    raise to its caller, and a document that reports failure yields the
    empty dict without a cause being recorded. *)
Lemma get_temperatures_can_raise :
  fst (fst (get_temperatures (answers null_cpu 1000) (reader_init true))) =
    Raise AttributeError
  /\ get_temperatures (answers no_success 1000) (reader_init true) =
     (Ok None, {| last_error := None; dll_available := true |}, [HelperRun]).
Proof.
  split; reflexivity.
Qed.

(** ** The cached presence of the DLL *)

Lemma probes_app (tr1 tr2 : list event) :
  probes (tr1 ++ tr2) = (probes tr1 + probes tr2)%nat.
Proof. unfold probes. now rewrite filter_app, length_app. Qed.

Lemma run_powershell_dll (e : env) (rd : reader) :
  dll_available (snd (fst (_run_powershell e rd))) =
  (dll_available rd || dll_exists e)%bool.
Proof.
  unfold _run_powershell.
  destruct (dll_available rd) eqn:Hd; simpl.
  - now rewrite run_helper_dll.
  - destruct (dll_exists e); simpl; [ | reflexivity].
    pose proof (run_helper_dll e (set_dll_available true rd)) as H.
    destruct (run_helper e (set_dll_available true rd)) as [[data rd2] tr].
    exact H.
Qed.

Lemma polls_never_probe_once_present (envs : list env) :
  forall rd, dll_available rd = true -> probes (snd (polls envs rd)) = 0%nat.
Proof.
  induction envs as [ | e rest IH]; intros rd Hd; [reflexivity | ].
  simpl.
  pose proof (run_powershell_trace e rd) as Htr.
  pose proof (run_powershell_dll e rd) as Hdll.
  destruct (_run_powershell e rd) as [[data rd1] tr]. simpl in Htr, Hdll.
  rewrite Hd in Htr, Hdll. simpl in Hdll.
  pose proof (IH rd1 Hdll) as Hrest.
  destruct (polls rest rd1) as [ds trs]. simpl in *.
  rewrite probes_app, Htr, Hrest. reflexivity.
Qed.

(** C8. The reader caches at construction whether the DLL is there.  While
    the cached answer is "absent", every poll probes the file once before
    it gives up: if the file is still missing the poll returns [None]
    without running the helper, and if the file has appeared the poll runs
    the helper and returns what a reader with the DLL cached as present
    returns, so a later poll succeeds without a restart.  Once the cached
    answer is "present" it stays so and no poll probes the file again. *)
Theorem dll_presence_cached_and_rechecked_while_absent :
  (forall exists0, dll_available (reader_init exists0) = exists0)
  /\ (forall e rd,
        dll_available rd = false ->
        let '(data, rd', tr) := _run_powershell e rd in
        probes tr = 1%nat
        /\ dll_available rd' = dll_exists e
        /\ (if dll_exists e
            then helper_runs tr = 1%nat
                 /\ data = fst (fst (_run_powershell e (set_dll_available true rd)))
            else helper_runs tr = 0%nat /\ data = JNull
                 /\ last_error rd' = last_error rd))
  /\ (forall e rd,
        dll_available rd = true ->
        let '(data, rd', tr) := _run_powershell e rd in
        probes tr = 0%nat /\ helper_runs tr = 1%nat /\ dll_available rd' = true)
  /\ (forall envs rd,
        dll_available rd = true -> probes (snd (polls envs rd)) = 0%nat)
  /\ (forall e1 e2 data stderr,
        dll_exists e1 = false ->
        dll_exists e2 = true ->
        helper e2 = Exited (Document data) stderr ->
        fst (polls [e1; e2] (reader_init false)) = [JNull; data]).
Proof.
  repeat apply conj.
  - reflexivity.
  - intros e rd Hd.
    pose proof (run_powershell_trace e rd) as Htr.
    pose proof (run_powershell_dll e rd) as Hdll.
    pose proof (run_powershell_data e rd) as Hdata.
    pose proof (run_powershell_cause e rd) as Hcause.
    pose proof (run_powershell_data e (set_dll_available true rd)) as Hdata'.
    destruct (_run_powershell e rd) as [[data rd'] tr].
    unfold helper_started in *. simpl in Htr, Hdll, Hdata, Hcause, Hdata'.
    rewrite Hd in Htr, Hdll, Hdata, Hcause. simpl in Hdll, Hdata, Hcause.
    destruct (dll_exists e); subst tr; repeat split; try assumption.
    now rewrite Hdata'.
  - intros e rd Hd.
    pose proof (run_powershell_trace e rd) as Htr.
    pose proof (run_powershell_dll e rd) as Hdll.
    destruct (_run_powershell e rd) as [[data rd'] tr].
    simpl in Htr, Hdll. rewrite Hd in Htr, Hdll. subst tr.
    repeat split. exact Hdll.
  - intros envs rd. apply polls_never_probe_once_present.
  - intros e1 e2 data stderr H1 H2 Hhelper.
    unfold polls, _run_powershell, run_helper. simpl.
    rewrite H1. simpl. rewrite H2. simpl. rewrite Hhelper. reflexivity.
Qed.

(** The DLL is missing at start and during the first poll, and is there at
    the second: the second poll returns the document of the helper. *)
Lemma dll_presence_cached_and_rechecked_while_absent_witness :
  fst (polls [{| dll_exists := false; helper := Timeout; now := 1000 |};
              answers scenario_A 1003] (reader_init false)) =
  [JNull; scenario_A].
Proof.
  destruct dll_presence_cached_and_rechecked_while_absent as (_ & _ & _ & _ & H).
  exact (H {| dll_exists := false; helper := Timeout; now := 1000 |}
           (answers scenario_A 1003) scenario_A EmptyString eq_refl eq_refl eq_refl).
Defined.

(** ** More on the tick: cooldown, debounce and the loop *)

Lemma alerts_app (tr1 tr2 : list event) :
  alerts (tr1 ++ tr2) = (alerts tr1 ++ alerts tr2)%list.
Proof. unfold alerts. apply flat_map_app. Qed.

Lemma exceptions_app (tr1 tr2 : list event) :
  exceptions (tr1 ++ tr2) = (exceptions tr1 ++ exceptions tr2)%list.
Proof. unfold exceptions. apply flat_map_app. Qed.

Lemma poll_trace_no_exception (e : env) (rd : reader) :
  exceptions (snd (get_temperatures e rd)) = [].
Proof.
  rewrite get_temperatures_trace, run_powershell_trace.
  destruct (dll_available rd); [ | destruct (dll_exists e)]; reflexivity.
Qed.

Lemma tick_finish (e : env) (m : monitor) :
  tick e m =
  finish_tick (fst (fst (check_temperatures e m)))
              (snd (fst (check_temperatures e m)))
              (snd (check_temperatures e m)).
Proof.
  unfold tick, finish_tick.
  destruct (check_temperatures e m) as [[r m1] tr]. cbn [fst snd].
  destruct r as [u | x]; [ | reflexivity].
  destruct (update_icon m1) as [[u2 | x] m2]; reflexivity.
Qed.

(** What the end of the tick leaves alone. *)
Lemma finish_tick_frame (r : result unit) (m1 : monitor) (tr : list event) :
  let m' := fst (finish_tick r m1 tr) in
  let tr' := snd (finish_tick r m1 tr) in
  running m' = running m1
  /\ temp_reader m' = temp_reader m1
  /\ temps m' = temps m1
  /\ last_notification_time m' = last_notification_time m1
  /\ error_shown m' = error_shown m1
  /\ critical_count m' = critical_count m1
  /\ alerts tr' = alerts tr
  /\ poll_errors tr' = poll_errors tr.
Proof.
  unfold finish_tick.
  destruct r as [u | x].
  - pose proof (update_icon_frame m1) as Hf.
    destruct (update_icon m1) as [[u2 | x] m2]; cbn in *;
      rewrite ?alerts_app, ?poll_errors_app; cbn; rewrite ?app_nil_r; tauto.
  - cbn. rewrite alerts_app, poll_errors_app. cbn. rewrite !app_nil_r. tauto.
Qed.

(** The counter, the time of the last alert and the alert of [alert_step]:
    either nothing is sent and the time stays, or the alert is sent, the
    time becomes the current time, the cooldown was over and the counter was
    already positive. *)
Lemma alert_step_cases (t : Q) (cs : list string) (m : monitor) :
  let m' := fst (alert_step t cs m) in
  let out := snd (alert_step t cs m) in
  (0 <= critical_count m -> 0 <= critical_count m' <= critical_count m + 1)%Z
  /\ ((out = [] /\ last_notification_time m' = last_notification_time m)
      \/ (out = [Notified ALERT_TITLE (alert_message cs) true]
          /\ last_notification_time m' = t
          /\ (last_notification_time m + inject_Z NOTIFICATION_COOLDOWN <= t)%Q
          /\ (1 <= critical_count m)%Z)).
Proof.
  unfold alert_step.
  destruct (nonempty cs); cbn [critical_count set_critical_count].
  - destruct (2 <=? critical_count m + 1)%Z eqn:Hc; cbn [andb].
    + destruct (Qle_bool (inject_Z NOTIFICATION_COOLDOWN)
                  (t - last_notification_time m)) eqn:Hq; cbn.
      * split; [lia | right]. repeat split.
        -- apply Qle_bool_iff in Hq. lra.
        -- apply Z.leb_le in Hc. lia.
      * split; [lia | left; split; reflexivity].
    + cbn. split; [lia | left; split; reflexivity].
  - cbn. split; [lia | left; split; reflexivity].
Qed.

Lemma check_temperatures_cases (e : env) (m : monitor) :
  let m' := snd (fst (check_temperatures e m)) in
  let tr := snd (check_temperatures e m) in
  running m' = running m
  /\ (0 <= critical_count m -> 0 <= critical_count m' <= critical_count m + 1)%Z
  /\ ((alerts tr = [] /\ last_notification_time m' = last_notification_time m)
      \/ (exists msg, alerts tr = [msg]
          /\ last_notification_time m' = now e
          /\ (last_notification_time m + inject_Z NOTIFICATION_COOLDOWN <= now e)%Q
          /\ (1 <= critical_count m)%Z)).
Proof.
  unfold check_temperatures.
  destruct (poll_trace_silent e (temp_reader m)) as [_ Hquiet].
  destruct (get_temperatures e (temp_reader m)) as [[r rd] tr0].
  cbn [snd] in Hquiet.
  assert (alerts (print_last_error rd) = []) as Hprint.
  { unfold print_last_error.
    destruct (last_error rd) as [s | ]; [destruct (nonempty_string s) | ]; reflexivity. }
  destruct r as [t | x].
  2:{ cbn [fst snd]. rewrite Hquiet. cbn [set_reader running critical_count last_notification_time].
      repeat split; try lia. left. split; reflexivity. }
  destruct (negb (temps_truthy t) && negb (error_shown (set_poll t rd m)))%bool.
  - cbn [fst snd]. rewrite alerts_app, Hquiet, Hprint.
    cbn [set_error_shown set_poll running critical_count last_notification_time].
    repeat split; try lia. left. split; reflexivity.
  - set (m2 := if temps_truthy t then set_error_shown false (set_poll t rd m)
               else set_poll t rd m).
    assert (running m2 = running m /\ critical_count m2 = critical_count m
            /\ last_notification_time m2 = last_notification_time m)
      as (Hr2 & Hc2 & Hl2) by (unfold m2; destruct (temps_truthy t); repeat split).
    destruct (critical_components t) as [cs | x].
    + pose proof (alert_step_cases (now e) cs m2) as Hstep.
      pose proof (alert_step_frame (now e) cs m2) as Hframe.
      destruct (alert_step (now e) cs m2) as [m3 out].
      cbn [fst snd] in *.
      destruct Hstep as [Hcount Hal]. destruct Hframe as (Hr3 & _).
      rewrite alerts_app, Hquiet, <- Hl2, <- Hc2. repeat split.
      * congruence.
      * apply Hcount. assumption.
      * apply Hcount. assumption.
      * destruct Hal as [[-> Hl] | (-> & Hl & Hcool & Hone)].
        -- left. split; [reflexivity | exact Hl].
        -- right. eexists. repeat split; try eassumption.
    + cbn [fst snd]. rewrite Hquiet, Hr2, Hc2, Hl2.
      repeat split; try lia. left. split; reflexivity.
Qed.

Lemma tick_cases (e : env) (m : monitor) :
  let m' := fst (tick e m) in
  let tr := snd (tick e m) in
  running m' = running m
  /\ (0 <= critical_count m -> 0 <= critical_count m' <= critical_count m + 1)%Z
  /\ ((alerts tr = [] /\ last_notification_time m' = last_notification_time m)
      \/ (exists msg, alerts tr = [msg]
          /\ last_notification_time m' = now e
          /\ (last_notification_time m + inject_Z NOTIFICATION_COOLDOWN <= now e)%Q
          /\ (1 <= critical_count m)%Z)).
Proof.
  cbv zeta. rewrite tick_finish.
  destruct (finish_tick_frame (fst (fst (check_temperatures e m)))
              (snd (fst (check_temperatures e m))) (snd (check_temperatures e m)))
    as (-> & _ & _ & -> & _ & -> & -> & _).
  apply check_temperatures_cases.
Qed.

(** X1. While [running] is set the loop runs one tick for every answer of
    the outside world, whatever the ticks read and whether or not they
    raise, and leaves [running] set; after [quit_app] it runs no tick. *)
Theorem loop_stops_only_on_quit (envs later : list env) (m : monitor) :
  running m = true ->
  let m' := fst (monitoring_loop envs m) in
  List.length (snd (monitoring_loop envs m)) = List.length envs
  /\ running m' = true
  /\ monitoring_loop later (fst (quit_app m')) = (fst (quit_app m'), []).
Proof.
  revert m. induction envs as [ | e rest IH]; intros m Hrun; cbv zeta.
  - cbn. repeat split; [exact Hrun | ]. destruct later; reflexivity.
  - rewrite (monitoring_loop_cons e rest m Hrun). cbn [fst snd List.length].
    destruct (tick_cases e m) as (Hrun' & _).
    rewrite Hrun in Hrun'.
    destruct (IH (fst (tick e m)) Hrun') as (Hlen & Hr & Hq).
    rewrite Hlen. repeat split; assumption.
Qed.

(** A document that makes the poll raise, then a poll that times out. *)
Lemma loop_stops_only_on_quit_witness :
  map exceptions
    (snd (monitoring_loop [answers null_cpu 1000; times_out 1003] started)) =
    [[AttributeError]; []]
  /\ List.length
       (snd (monitoring_loop [answers null_cpu 1000; times_out 1003] started)) = 2%nat.
Proof.
  split; [reflexivity | ].
  apply (loop_stops_only_on_quit
           [answers null_cpu 1000; times_out 1003] [] started eq_refl).
Defined.

(** X2. In every run of the loop two alerts are at least 60 seconds apart
    by the clock the ticks read, and the first is at least 60 seconds after
    the time of the last alert the monitor had recorded. *)
Theorem alerts_are_a_cooldown_apart (envs : list env) (m : monitor) :
  running m = true ->
  spaced (inject_Z NOTIFICATION_COOLDOWN) (last_notification_time m)
    (alert_times envs (snd (monitoring_loop envs m))).
Proof.
  revert m. induction envs as [ | e rest IH]; intros m Hrun; [exact I | ].
  rewrite (monitoring_loop_cons e rest m Hrun). cbn [snd alert_times].
  destruct (tick_cases e m) as (Hrun' & _ & Hcases).
  rewrite Hrun in Hrun'.
  pose proof (IH (fst (tick e m)) Hrun') as Hrest.
  destruct Hcases as [[-> Hlast] | (msg & -> & Hlast & Hcool & _)];
    cbn [nonempty app]; rewrite Hlast in Hrest.
  - exact Hrest.
  - split; assumption.
Qed.

(** Scenario A on six ticks, three seconds apart: the alert goes out on the
    second tick only. *)
Lemma alerts_are_a_cooldown_apart_witness :
  let envs := [answers scenario_A 1000; answers scenario_A 1003;
               answers scenario_A 1006; answers scenario_A 1009;
               answers scenario_A 1012; answers scenario_A 1015] in
  alert_times envs (snd (monitoring_loop envs started)) = [1003%Q]
  /\ spaced (inject_Z NOTIFICATION_COOLDOWN) (last_notification_time started)
       (alert_times envs (snd (monitoring_loop envs started))).
Proof.
  intros envs. split; [reflexivity | ].
  apply (alerts_are_a_cooldown_apart envs started eq_refl).
Defined.

(** X3. A tick sends no alert when the counter of consecutive critical ticks
    is at 0 (or below) before it, whatever it reads: the first critical
    reading never alerts. *)
Theorem no_alert_on_first_critical_tick (e : env) (m : monitor) :
  (critical_count m <= 0)%Z ->
  alerts (snd (tick e m)) = [].
Proof.
  intros Hzero.
  destruct (tick_cases e m) as (_ & _ & [[Hnone _] | (msg & _ & _ & _ & Hone)]).
  - exact Hnone.
  - lia.
Qed.

Lemma no_alert_on_first_critical_tick_witness :
  critical_components (temps (fst (tick (answers scenario_A 1000) started)))
    = Ok ["CPU: 92" ++ DEGREES]%string
  /\ alerts (snd (tick (answers scenario_A 1000) started)) = [].
Proof.
  split; [reflexivity | ].
  apply (no_alert_on_first_critical_tick (answers scenario_A 1000) started).
  vm_compute. discriminate.
Defined.

Lemma update_icon_no_data (m : monitor) (ic : tray_icon) :
  icon m = Some ic ->
  temps m = None ->
  update_icon m =
  (Ok tt, set_icon {| image := {| bg_color := GREY; temp_text := "?" |};
                      title := "No data" |} m).
Proof.
  intros Hicon Htemps. unfold update_icon. rewrite Hicon, Htemps. reflexivity.
Qed.

(** X4. A tick whose poll yields the empty dict sends no alert and raises
    nothing, stores the empty dict, and (with the tray icon created) draws
    the grey glyph with ["?"] and the tooltip ["No data"]. *)
Theorem failed_poll_shows_no_data (e : env) (m : monitor) (ic : tray_icon) :
  icon m = Some ic ->
  poll_failed e m = true ->
  let m' := fst (tick e m) in
  temps m' = None
  /\ icon m' = Some {| image := {| bg_color := GREY; temp_text := "?" |};
                       title := "No data" |}
  /\ alerts (snd (tick e m)) = []
  /\ exceptions (snd (tick e m)) = [].
Proof.
  intros Hicon Hfail. cbv zeta.
  destruct (poll_trace_silent e (temp_reader m)) as [_ Hquiet].
  pose proof (poll_trace_no_exception e (temp_reader m)) as Hnoexn.
  assert (alerts (print_last_error (reader_after e m)) = []
          /\ exceptions (print_last_error (reader_after e m)) = []) as [Hp1 Hp2].
  { unfold print_last_error.
    destruct (last_error (reader_after e m)) as [s | ];
      [destruct (nonempty_string s) | ]; split; reflexivity. }
  rewrite tick_finish, (check_temperatures_failed e m Hfail). cbv zeta.
  destruct (error_shown m); cbn [fst snd finish_tick].
  - rewrite (update_icon_no_data _ ic) by (cbn; assumption || reflexivity).
    cbn [fst snd]. rewrite Hquiet, Hnoexn. repeat split.
  - rewrite (update_icon_no_data _ ic) by (cbn; assumption || reflexivity).
    cbn [fst snd]. rewrite alerts_app, exceptions_app, Hquiet, Hnoexn, Hp1, Hp2.
    repeat split.
Qed.

Lemma failed_poll_shows_no_data_witness :
  let m := fst (tick (answers scenario_A 1000) started) in
  option_map image (icon m) = Some {| bg_color := RED; temp_text := "92" |}
  /\ icon (fst (tick (times_out 1003) m)) =
     Some {| image := {| bg_color := GREY; temp_text := "?" |}; title := "No data" |}.
Proof.
  intros m. split; [reflexivity | ].
  destruct (failed_poll_shows_no_data (times_out 1003) m
              {| image := {| bg_color := RED; temp_text := "92" |};
                 title := "CPU: 92" ++ DEGREES ++ " | GPU: 60" ++ DEGREES |}
              eq_refl eq_refl) as (_ & H & _).
  exact H.
Defined.

(** X5. A tick whose poll raises (the document has not the expected shape)
    prints the exception and changes nothing but the reader: the reading,
    the glyph and the tooltip of the tick before stay on display, and the
    counter, the time of the last alert and [error_shown] are as they were. *)
Theorem raising_poll_keeps_the_display (e : env) (m : monitor) :
  raises (fst (fst (get_temperatures e (temp_reader m)))) = true ->
  let m' := fst (tick e m) in
  temps m' = temps m
  /\ icon m' = icon m
  /\ critical_count m' = critical_count m
  /\ last_notification_time m' = last_notification_time m
  /\ error_shown m' = error_shown m
  /\ alerts (snd (tick e m)) = []
  /\ exists x, exceptions (snd (tick e m)) = [x].
Proof.
  unfold tick, check_temperatures.
  destruct (poll_trace_silent e (temp_reader m)) as [_ Hquiet].
  pose proof (poll_trace_no_exception e (temp_reader m)) as Hnoexn.
  destruct (get_temperatures e (temp_reader m)) as [[r rd] tr0].
  cbn [fst snd] in *.
  destruct r as [t | x]; [discriminate | ].
  intros _. cbn [fst snd].
  rewrite alerts_app, exceptions_app, Hquiet, Hnoexn.
  repeat split. exists x. reflexivity.
Qed.

Lemma raising_poll_keeps_the_display_witness :
  let m := fst (tick (answers scenario_A 1000) started) in
  option_map image (icon (fst (tick (answers null_cpu 1003) m))) =
    Some {| bg_color := RED; temp_text := "92" |}
  /\ icon (fst (tick (answers null_cpu 1003) m)) = icon m.
Proof.
  intros m. split; [reflexivity | ].
  destruct (raising_poll_keeps_the_display (answers null_cpu 1003) m eq_refl)
    as (_ & H & _).
  exact H.
Defined.

Lemma check_temperatures_stores_the_poll (e : env) (m : monitor) (t : temps_dict) :
  fst (fst (get_temperatures e (temp_reader m))) = Ok t ->
  temps (snd (fst (check_temperatures e m))) = t
  /\ error_shown (snd (fst (check_temperatures e m))) = negb (temps_truthy t).
Proof.
  unfold check_temperatures.
  destruct (get_temperatures e (temp_reader m)) as [[r rd] tr0].
  cbn [fst snd]. intros ->.
  destruct t as [r | ]; cbn [temps_truthy negb andb].
  - destruct (critical_components (Some r)) as [cs | x].
    + pose proof (alert_step_frame (now e) cs
                    (set_error_shown false (set_poll (Some r) rd m))) as Hf.
      destruct (alert_step _ _ _) as [m3 out]. cbn [fst snd] in *.
      destruct Hf as (_ & _ & Ht & _ & He). rewrite Ht, He. split; reflexivity.
    + split; reflexivity.
  - cbn [set_poll error_shown].
    destruct (error_shown m) eqn:Hshown; cbn [negb fst snd].
    + unfold critical_components. cbn.
      unfold alert_step. cbn. split; [reflexivity | exact Hshown].
    + split; reflexivity.
Qed.

(** X6. After every tick whose poll does not raise, the monitor stores what
    the poll returned, and [error_shown] is set exactly when that is the
    empty dict. *)
Theorem error_shown_mirrors_the_poll (e : env) (m : monitor) (t : temps_dict) :
  fst (fst (get_temperatures e (temp_reader m))) = Ok t ->
  temps (fst (tick e m)) = t
  /\ error_shown (fst (tick e m)) = negb (temps_truthy t).
Proof.
  intros Hpoll. rewrite tick_finish.
  destruct (finish_tick_frame (fst (fst (check_temperatures e m)))
              (snd (fst (check_temperatures e m))) (snd (check_temperatures e m)))
    as (_ & _ & -> & _ & -> & _).
  now apply check_temperatures_stores_the_poll.
Qed.

Lemma error_shown_mirrors_the_poll_witness :
  temps (fst (tick (answers no_success 1000) started)) = None
  /\ error_shown (fst (tick (answers no_success 1000) started)) = true.
Proof.
  apply (error_shown_mirrors_the_poll (answers no_success 1000) started None eq_refl).
Defined.

(** X7. [last_error] is never cleared, and a failure that records no cause
    (the DLL is missing, or the helper prints a document) prints, on the
    first failed tick of a run, whatever cause an earlier poll left. *)
Theorem uncaused_failure_prints_an_earlier_cause (e : env) (m : monitor) :
  error_shown m = false ->
  poll_failed e m = true ->
  helper_started e (temp_reader m) = false
  \/ (exists data stderr, helper e = Exited (Document data) stderr) ->
  last_error (reader_after e m) = last_error (temp_reader m)
  /\ poll_errors (snd (tick e m)) = printed_cause (temp_reader m).
Proof.
  intros Hshown Hfail Hkind.
  assert (last_error (reader_after e m) = last_error (temp_reader m)) as Hsame.
  { unfold reader_after.
    destruct (get_temperatures_result e (temp_reader m)) as [_ ->].
    rewrite run_powershell_cause.
    destruct Hkind as [-> | (data & stderr & ->)]; [reflexivity | ].
    destruct (helper_started e (temp_reader m)); reflexivity. }
  split; [exact Hsame | ].
  destruct (tick_failed e m Hfail) as (-> & _). rewrite Hshown.
  unfold printed_cause. now rewrite Hsame.
Qed.

(** A timeout, then a reading, then a document that reports failure: the
    third tick prints the timeout. *)
Lemma uncaused_failure_prints_an_earlier_cause_witness :
  let m := fst (monitoring_loop [times_out 1000; answers scenario_A 1003] started) in
  poll_errors (snd (tick (answers no_success 1006) m)) =
    ["Timeout reading temperature"].
Proof.
  intros m.
  destruct (uncaused_failure_prints_an_earlier_cause (answers no_success 1006) m
              eq_refl eq_refl) as [_ H].
  - right. exists no_success, EmptyString. reflexivity.
  - exact H.
Defined.

(** ** Readings whose temperatures are numbers *)










(** ** Documents of the helper's types *)










(** ** The numbers in the texts *)



(** X17. The alert is sent whenever it is due: on a tick whose reading has a
    component at or above its threshold, with the counter already positive
    and at least 60 seconds since the last alert, the tick sends the alert
    that lists the critical components. *)
Theorem alert_is_sent_when_due (e : env) (m : monitor) (t : temps_dict)
  (cs : list string) :
  fst (fst (get_temperatures e (temp_reader m))) = Ok t ->
  critical_components t = Ok cs ->
  nonempty cs = true ->
  (1 <= critical_count m)%Z ->
  (last_notification_time m + inject_Z NOTIFICATION_COOLDOWN <= now e)%Q ->
  alerts (snd (tick e m)) = [alert_message cs]
  /\ last_notification_time (fst (tick e m)) = now e.
Proof.
  intros Hpoll Hcs Hne Hcount Hcool.
  rewrite tick_finish.
  destruct (finish_tick_frame (fst (fst (check_temperatures e m)))
              (snd (fst (check_temperatures e m))) (snd (check_temperatures e m)))
    as (_ & _ & _ & -> & _ & _ & -> & _).
  unfold check_temperatures.
  destruct (poll_trace_silent e (temp_reader m)) as [_ Hquiet].
  destruct (get_temperatures e (temp_reader m)) as [[r rd] tr0].
  cbn [fst snd] in *. subst r.
  destruct t as [r | ]; [ | cbn in Hcs; injection Hcs as <-; discriminate].
  cbn [temps_truthy negb andb]. rewrite Hcs.
  unfold alert_step. rewrite Hne.
  cbn [critical_count set_critical_count set_error_shown set_poll
       last_notification_time].
  assert ((2 <=? critical_count m + 1)%Z = true) as -> by (apply Z.leb_le; lia).
  assert (Qle_bool (inject_Z NOTIFICATION_COOLDOWN)
            (now e - last_notification_time m) = true) as ->
      by (apply Qle_bool_iff; lra).
  cbn [andb fst snd]. rewrite alerts_app, Hquiet. split; reflexivity.
Qed.

(** Scenario A, second tick. *)
Lemma alert_is_sent_when_due_witness :
  let m := fst (tick (answers scenario_A 1000) started) in
  alerts (snd (tick (answers scenario_A 1003) m)) =
    [alert_message ["CPU: 92" ++ DEGREES]%string]
  /\ last_notification_time (fst (tick (answers scenario_A 1003) m)) = 1003%Q.
Proof.
  intros m.
  apply (alert_is_sent_when_due (answers scenario_A 1003) m
           (Some {| cpu := JNum 92; cpu_name := JStr "CPU"; gpu := JNum 60;
                    gpu_name := JStr "GPU"; ssds := [] |})
           ["CPU: 92" ++ DEGREES]%string eq_refl eq_refl eq_refl).
  - vm_compute. discriminate.
  - vm_compute. discriminate.
Defined.

(** ** Autostart *)

(** X12. With a Run key that can be opened, [toggle_autostart] inverts what
    [is_autostart_enabled] answers and sends one notification; a second
    toggle restores the answer, and when no entry was stored at first the
    key is then exactly as it was. *)
Theorem toggle_inverts_autostart (script_path executable : string)
  (k : Autostart.run_key) :
  Autostart.open_error k = None ->
  let k1 := fst (Autostart.toggle_autostart script_path executable k) in
  let k2 := fst (Autostart.toggle_autostart script_path executable k1) in
  Autostart.is_autostart_enabled k1 = negb (Autostart.is_autostart_enabled k)
  /\ List.length (snd (Autostart.toggle_autostart script_path executable k)) = 1%nat
  /\ Autostart.is_autostart_enabled k2 = Autostart.is_autostart_enabled k
  /\ (Autostart.app_value k = None -> k2 = k).
Proof.
  destruct k as [err value]. cbn [Autostart.open_error]. intros ->.
  destruct value as [v | ]; cbn; repeat split; discriminate.
Qed.

Lemma toggle_inverts_autostart_witness :
  let k := {| Autostart.open_error := None; Autostart.app_value := None |} in
  Autostart.is_autostart_enabled
    (fst (Autostart.toggle_autostart "C:\tools\monitor.py" "C:\Python312\python.exe" k))
  = true
  /\ Autostart.app_value
       (fst (Autostart.toggle_autostart "C:\tools\monitor.py" "C:\Python312\python.exe" k))
     = Some (QUOTE ++ "C:\Python312\pythonw.exe" ++ QUOTE ++ " "
             ++ QUOTE ++ "C:\tools\monitor.py" ++ QUOTE)%string.
Proof.
  intros k. split; [ | reflexivity].
  destruct (toggle_inverts_autostart "C:\tools\monitor.py" "C:\Python312\python.exe" k
              eq_refl) as (H & _).
  exact H.
Defined.

(** X13. When the Run key cannot be opened, [is_autostart_enabled] answers
    False, so every toggle tries to enable: it changes nothing and sends the
    "Error" notification with the text of the exception; [disable_autostart]
    changes nothing and sends nothing. *)
Theorem autostart_without_the_run_key (script_path executable msg : string)
  (k : Autostart.run_key) :
  Autostart.open_error k = Some msg ->
  Autostart.is_autostart_enabled k = false
  /\ Autostart.toggle_autostart script_path executable k =
     (k, [Notified "Error" ("Could not enable autostart: " ++ msg) false])
  /\ Autostart.disable_autostart k = (k, []).
Proof.
  destruct k as [err value]. cbn [Autostart.open_error]. intros ->.
  destruct value; repeat split.
Qed.

Lemma autostart_without_the_run_key_witness :
  let k := {| Autostart.open_error := Some "Access is denied";
              Autostart.app_value := Some "old" |} in
  Autostart.is_autostart_enabled k = false
  /\ Autostart.toggle_autostart "monitor.exe" "python.exe" k =
     (k, [Notified "Error" "Could not enable autostart: Access is denied" false])
  /\ Autostart.disable_autostart k = (k, []).
Proof.
  intros k.
  apply (autostart_without_the_run_key "monitor.exe" "python.exe" "Access is denied" k
           eq_refl).
Defined.

(** ** The download of the DLL *)

Lemma reports_app (tr1 tr2 : list Download.event) :
  Download.reports (tr1 ++ tr2) = (Download.reports tr1 ++ Download.reports tr2)%list.
Proof. unfold Download.reports. apply flat_map_app. Qed.

Lemma read_chunks_spec (answers : list Download.read_answer) (total_size : Z)
  (callback : bool) :
  forall (downloaded : Z) (chunks : list string),
    Download.reports
      (snd (Download.read_chunks answers total_size callback downloaded chunks)) =
      (if ((0 <? total_size)%Z && callback)%bool
       then Download.running_sums downloaded (Download.chunks_read answers)
       else [])
    /\ (Download.reads_ok answers = true ->
        fst (Download.read_chunks answers total_size callback downloaded chunks) =
        Download.Done (chunks ++ Download.chunks_read answers)%list)
    /\ (Download.reads_ok answers = false ->
        exists msg,
          fst (Download.read_chunks answers total_size callback downloaded chunks) =
          Download.Raised msg).
Proof.
  induction answers as [ | a rest IH]; intros downloaded chunks.
  - cbn. rewrite app_nil_r. repeat split; try discriminate.
    destruct ((0 <? total_size)%Z && callback)%bool; reflexivity.
  - destruct a as [bytes | msg].
    + cbn [Download.read_chunks Download.chunks_read Download.reads_ok].
      destruct (nonempty_string bytes).
      * specialize (IH (downloaded + Z.of_nat (String.length bytes))%Z
                      (chunks ++ [bytes])%list).
        destruct (Download.read_chunks rest total_size callback
                    (downloaded + Z.of_nat (String.length bytes))%Z
                    (chunks ++ [bytes])%list) as [r evs].
        cbn [fst snd] in *. destruct IH as (Hrep & Hok & Hbad).
        rewrite reports_app, Hrep. repeat split.
        -- destruct ((0 <? total_size)%Z && callback)%bool; reflexivity.
        -- intros H. rewrite (Hok H), <- app_assoc. reflexivity.
        -- exact Hbad.
      * cbn. rewrite app_nil_r. repeat split; try discriminate.
        destruct ((0 <? total_size)%Z && callback)%bool; reflexivity.
    + cbn. repeat split; try discriminate.
      * destruct ((0 <? total_size)%Z && callback)%bool; reflexivity.
      * intros _. exists msg. reflexivity.
Qed.

Lemma length_append (a b : string) :
  String.length (a ++ b) = (String.length a + String.length b)%nat.
Proof. induction a as [ | c a IH]; cbn; [reflexivity | now rewrite IH]. Qed.

Lemma concat_cons_length (c : string) (rest : list string) :
  String.length (String.concat EmptyString (c :: rest)) =
  (String.length c + String.length (String.concat EmptyString rest))%nat.
Proof.
  destruct rest as [ | c' rest']; cbn [String.concat].
  - cbn. lia.
  - rewrite length_append. reflexivity.
Qed.

Lemma last_running_sum (chunks : list string) :
  forall downloaded default,
    last (Download.running_sums downloaded chunks) default =
    match chunks with
    | [] => default
    | _ :: _ =>
        (downloaded + Z.of_nat (String.length (String.concat EmptyString chunks)))%Z
    end.
Proof.
  induction chunks as [ | c rest IH]; intros downloaded default; [reflexivity | ].
  rewrite concat_cons_length.
  destruct rest as [ | c' rest'].
  - cbn. lia.
  - change (Download.running_sums downloaded (c :: c' :: rest'))
      with ((downloaded + Z.of_nat (String.length c))%Z
            :: Download.running_sums (downloaded + Z.of_nat (String.length c))%Z
                 (c' :: rest')).
    change (last (?x :: Download.running_sums ?d (c' :: rest')) default)
      with (last (Download.running_sums d (c' :: rest')) default).
    rewrite IH. lia.
Qed.

(** X14. The progress callback of [download_lhm_dll] is called once per chunk
    read, with the running total of the bytes read so far, when a callback
    is given and the content-length header is a positive number, and never
    otherwise; the last total reported is the size of the data handed to
    the archive reader (the header does not bound it). *)
Theorem progress_reports_running_totals (callback : bool) (e : Download.env)
  (dll_file : option string) :
  let total_size :=
    match Download.urlopen_error e, Download.content_length e with
    | None, Download.HeaderInt n => n
    | _, _ => 0%Z
    end in
  let chunks := Download.chunks_read (Download.reads e) in
  let tr := snd (Download.download_lhm_dll callback e dll_file) in
  Download.reports tr =
    (if ((0 <? total_size)%Z && callback)%bool
     then Download.running_sums 0 chunks else [])
  /\ (((0 <? total_size)%Z && callback)%bool = true ->
      last (Download.reports tr) 0%Z =
      Z.of_nat (String.length (String.concat EmptyString chunks))).
Proof.
  cbv zeta.
  assert (Download.reports (snd (Download.download_lhm_dll callback e dll_file)) =
          (if ((0 <?
                match Download.urlopen_error e, Download.content_length e with
                | None, Download.HeaderInt n => n
                | _, _ => 0%Z
                end)%Z && callback)%bool
           then Download.running_sums 0 (Download.chunks_read (Download.reads e))
           else [])) as Hrep.
  { unfold Download.download_lhm_dll.
    destruct (Download.urlopen_error e) as [msg | ]; [reflexivity | ].
    destruct (Download.content_length e) as [ | n | msg]; [ | | reflexivity].
    all: match goal with
         | |- context [Download.read_chunks ?a ?t ?c ?d ?l] =>
             pose proof (read_chunks_spec a t c d l) as (Hrep & _);
             destruct (Download.read_chunks a t c d l) as [[chunks | msg] evs]
         end;
      cbn [snd] in Hrep;
      [destruct (Download.unzip e (String.concat EmptyString chunks)) as [msg | l];
       [ | destruct (find (fun nb => ends_with Download.DLL_NAME (fst nb)) l)
             as [[nm b0] | ];
           [destruct (Download.save_member e (Download.open_member nm b0 l) dll_file)
              as [[msg | ] f] | ]] | ];
      reports_through reports_app Hrep. }
  split; [exact Hrep | ].
  intros Hon. rewrite Hrep, Hon, last_running_sum.
  destruct (Download.chunks_read (Download.reads e)); [reflexivity | lia].
Qed.

(** Three chunks of 4, 4 and 2 bytes under a header that announces 8. *)
Lemma progress_reports_running_totals_witness :
  let e := {| Download.urlopen_error := None;
              Download.content_length := Download.HeaderInt 8;
              Download.reads := [Download.Chunk "abcd"; Download.Chunk "efgh";
                                 Download.Chunk "ij"];
              Download.unzip := fun _ => Download.BadZip "not a zip file";
              Download.dll_open_error := None |} in
  Download.reports (snd (Download.download_lhm_dll true e None)) = [4; 8; 10]%Z
  /\ last (Download.reports (snd (Download.download_lhm_dll true e None))) 0%Z = 10%Z.
Proof.
  intros e. split; [reflexivity | ].
  apply (proj2 (progress_reports_running_totals true e None)). reflexivity.
Defined.



Lemma download_true_means_written (callback : bool) (e : Download.env)
  (dll_file : option string) :
  fst (fst (Download.download_lhm_dll callback e dll_file)) = true ->
  exists content,
    snd (fst (Download.download_lhm_dll callback e dll_file)) = Some content.
Proof.
  unfold Download.download_lhm_dll.
  destruct (Download.urlopen_error e) as [msg | ]; [discriminate | ].
  destruct (Download.content_length e) as [ | n | msg]; [ | | discriminate].
  all: match goal with
       | |- context [Download.read_chunks ?a ?t ?c ?d ?l] =>
           destruct (Download.read_chunks a t c d l) as [[chunks | msg] evs]
       end; [ | discriminate];
    destruct (Download.unzip e (String.concat EmptyString chunks)) as [msg | l];
    [discriminate | ];
    destruct (find (fun nb => ends_with Download.DLL_NAME (fst nb)) l)
      as [[nm b0] | ]; [ | discriminate];
    unfold Download.save_member;
    destruct (Download.open_member nm b0 l) as [msg | msg | content];
    try discriminate;
    destruct (Download.dll_open_error e) as [msg' | ]; try discriminate;
    intros _; exists content; reflexivity.
Qed.

Lemma ensure_true_means_present (e : Download.env) (dll_file : option string) :
  fst (fst (Download.ensure_dll_exists e dll_file)) = true ->
  exists content, snd (fst (Download.ensure_dll_exists e dll_file)) = Some content.
Proof.
  unfold Download.ensure_dll_exists.
  destruct dll_file as [content | ].
  - intros _. exists content. reflexivity.
  - pose proof (download_true_means_written true e None) as H.
    destruct (Download.download_lhm_dll true e None) as [[ok f] evs].
    cbn [fst snd] in *. exact H.
Qed.

(** ** From the entry point to the loop *)

Lemma probes_through (tr : list event) (x : exn) :
  probes (tr ++ [ExceptionPrinted x]) = probes tr
  /\ helper_runs (tr ++ [ExceptionPrinted x]) = helper_runs tr.
Proof.
  unfold probes, helper_runs. rewrite !filter_app, !length_app. cbn. lia.
Qed.

Lemma helper_runs_app (tr1 tr2 : list event) :
  helper_runs (tr1 ++ tr2) = (helper_runs tr1 + helper_runs tr2)%nat.
Proof. unfold helper_runs. now rewrite filter_app, length_app. Qed.

Lemma alert_step_no_poll (t : Q) (cs : list string) (m : monitor) :
  probes (snd (alert_step t cs m)) = 0%nat
  /\ helper_runs (snd (alert_step t cs m)) = 0%nat.
Proof.
  unfold alert_step.
  destruct (nonempty cs);
    match goal with |- context [if ?b then _ else _] => destruct b end;
    split; reflexivity.
Qed.

(** A tick of a monitor whose reader has the DLL cached as present: the
    file is not probed and the helper is run once. *)
Lemma tick_with_cached_dll (e : env) (m : monitor) :
  dll_available (temp_reader m) = true ->
  probes (snd (tick e m)) = 0%nat
  /\ helper_runs (snd (tick e m)) = 1%nat
  /\ dll_available (temp_reader (fst (tick e m))) = true.
Proof.
  intros Hdll. rewrite tick_finish.
  destruct (finish_tick_frame (fst (fst (check_temperatures e m)))
              (snd (fst (check_temperatures e m))) (snd (check_temperatures e m)))
    as (_ & -> & _).
  assert (probes (snd (check_temperatures e m)) = 0%nat
          /\ helper_runs (snd (check_temperatures e m)) = 1%nat
          /\ dll_available (temp_reader (snd (fst (check_temperatures e m)))) = true)
    as (Hp & Hh & Hd).
  { unfold check_temperatures.
    pose proof (get_temperatures_trace e (temp_reader m)) as Htr.
    rewrite run_powershell_trace, Hdll in Htr.
    destruct (get_temperatures_result e (temp_reader m)) as [_ Hrd].
    pose proof (run_powershell_dll e (temp_reader m)) as Hdll'.
    rewrite <- Hrd, Hdll in Hdll'. cbn [orb] in Hdll'.
    destruct (get_temperatures e (temp_reader m)) as [[r rd] tr0].
    cbn [fst snd] in *. subst tr0.
    destruct r as [t | x]; [ | repeat split; assumption].
    destruct (negb (temps_truthy t) && negb (error_shown (set_poll t rd m)))%bool.
    - cbn [fst snd]. unfold print_last_error.
      destruct (last_error rd) as [s | ]; [destruct (nonempty_string s) | ];
        repeat split; assumption.
    - destruct (critical_components t) as [cs | x].
      + match goal with
        | |- context [alert_step ?a ?b ?c] =>
            pose proof (alert_step_no_poll a b c) as [Hp Hh];
            pose proof (alert_step_frame a b c) as (_ & Hr & _);
            destruct (alert_step a b c) as [m3 out]
        end.
        cbn [fst snd] in *. rewrite probes_app, helper_runs_app, Hp, Hh, Hr.
        destruct (temps_truthy t); repeat split; assumption.
      + destruct (temps_truthy t); repeat split; assumption. }
  unfold finish_tick.
  destruct (fst (fst (check_temperatures e m))) as [u | x].
  - destruct (update_icon (snd (fst (check_temperatures e m)))) as [[u2 | x] m2];
      cbn [fst snd].
    + repeat split; assumption.
    + destruct (probes_through (snd (check_temperatures e m)) x) as [-> ->].
      repeat split; assumption.
  - cbn [fst snd].
    destruct (probes_through (snd (check_temperatures e m)) x) as [-> ->].
    repeat split; assumption.
Qed.

Lemma run_with_cached_dll (envs : list env) :
  forall m,
    running m = true ->
    dll_available (temp_reader m) = true ->
    Forall (fun tr => probes tr = 0%nat /\ helper_runs tr = 1%nat)
      (snd (monitoring_loop envs m)).
Proof.
  induction envs as [ | e rest IH]; intros m Hrun Hdll; [constructor | ].
  rewrite (monitoring_loop_cons e rest m Hrun). cbn [snd].
  destruct (tick_with_cached_dll e m Hdll) as (Hp & Hh & Hd).
  destruct (tick_cases e m) as (Hrun' & _). rewrite Hrun in Hrun'.
  constructor; [split; assumption | apply IH; assumption].
Qed.

(** X16. When the script gets past [ensure_dll_exists] (the DLL file was
    there, with whatever content, or the download saved it), the monitor
    starts with the DLL cached as present; then no tick of the loop probes
    the file again and every tick runs the helper once, also when the file
    is gone by then. *)
Theorem started_program_never_probes (e : Download.env) (dll_file : option string)
  (m : monitor) (envs : list env) :
  startup e dll_file = Some m ->
  dll_available (temp_reader m) = true
  /\ Forall (fun tr => probes tr = 0%nat /\ helper_runs tr = 1%nat)
       (snd (monitoring_loop envs m)).
Proof.
  unfold startup.
  pose proof (ensure_true_means_present e dll_file) as Hpresent.
  destruct (Download.ensure_dll_exists e dll_file) as [[ok f] evs].
  cbn [fst snd] in Hpresent.
  destruct ok; [ | discriminate].
  destruct (Hpresent eq_refl) as [content ->].
  intros [= <-]. split; [reflexivity | ].
  apply run_with_cached_dll; reflexivity.
Qed.

(** The DLL file exists but is empty, and it is gone during the ticks. *)
Lemma started_program_never_probes_witness :
  let e := {| Download.urlopen_error := Some "no network";
              Download.content_length := Download.NoHeader;
              Download.reads := [];
              Download.unzip := fun _ => Download.BadZip "not a zip file";
              Download.dll_open_error := None |} in
  let gone := {| dll_exists := false; helper := Failed "DLL not found"; now := 1000 |} in
  startup e (Some EmptyString) = Some started
  /\ Forall (fun tr => probes tr = 0%nat /\ helper_runs tr = 1%nat)
       (snd (monitoring_loop [gone; gone] started)).
Proof.
  intros e gone. split; [reflexivity | ].
  apply (started_program_never_probes e (Some EmptyString) started [gone; gone] eq_refl).
Defined.
